(** * The permissions plugin of arc: handlers, routes and initialisation

    A shallow embedding of the Go package [plugins/permissions]:
    the four HTTP handlers (get/put/patch/delete permission), the route
    table that nests them under the request guards, and [InitFunc].

    Effects are kept explicit.  A handler is a function from a request and
    the trace of effects so far to the extended trace; the trace records,
    in order, every response write, log line, body read and dao call.  *)

From stdpp Require Import base numbers strings list gmap.

Local Open Scope Z_scope.

(** ** Go values *)

(** Characters that cannot be written inside a string literal here. *)
Definition dq : string := String (Ascii.ascii_of_nat 34) EmptyString.
Definition nl : string := String (Ascii.ascii_of_nat 10) EmptyString.
Definition quoted (s : string) : string := dq +:+ s +:+ dq.

(** Go's [error] values met in this package.  [EnvVarNotSetError] is built
    by [errors.NewEnvVarNotSetError]; [ValidationError] is the error of the
    permission package's setters (spec section 7); [NotFoundError] is the
    dao's not-found condition (spec section 6); [Foreign] stands for any
    error of a library outside the repository (io, encoding/json, the
    elasticsearch client), carrying its text. *)
Inductive error : Type :=
| EnvVarNotSetError (name : string)
| ValidationError (field : string)
| NotFoundError (key : string)
| Foreign (text : string).

(** [net/http] status constants. *)
Definition StatusOK : Z := 200.
Definition StatusBadRequest : Z := 400.
Definition StatusUnauthorized : Z := 401.
Definition StatusForbidden : Z := 403.
Definition StatusNotFound : Z := 404.
Definition StatusInternalServerError : Z := 500.

(** ** Package [internal/types/permission] *)

Module permission.

(** Modelled from the spec: the [Permission] struct is declared in
    [internal/types/permission], which is not among the sources.  The
    fields are those of spec section 3 that construction and the
    handlers touch.  A Go slice or pointer that may be [nil] is an
    [option]: [None] is nil, [Some []] is an empty, non-nil slice.
    Categories are the strings of their JSON form; a quota is a list of
    key/value pairs. *)
Definition Quota : Type := list (string * Z).

Record Permission : Type := mkPermission {
  UserId : string;
  Username : string;
  Password : string;
  CreatedAt : Z;
  Ops : option (list string);
  ACLs : option (list string);
  Limits : option Quota
}.

(** Modelled from the spec: the constants of the package that the spec
    leaves open: which categories are recognised, which quotas are well
    shaped, and the documented defaults. *)
Record Constants : Type := {
  knownOp : string -> bool;
  knownACL : string -> bool;
  validLimits : Quota -> bool;
  defaultOps : list string;
  defaultACLs : list string;
  defaultLimits : Quota
}.

(** What construction generates by itself: the credential pair and the
    creation time. *)
Record Generated : Type := {
  genUsername : string;
  genPassword : string;
  genNow : Z
}.

(** Modelled from the spec: the construction options of section 4.1.
    In Go each is a closure over [*Permission]; here it is its name and
    argument, interpreted by [applyOption]. *)
Inductive Options : Type :=
| SetUserId (userId : string)
| SetOps (ops : list string)
| SetACLs (acls : list string)
| SetLimits (limits : Quota).

(** A patch: the validated fields to overwrite (section 4.2). *)
Inductive PatchField : Type :=
| PatchOps (ops : list string)
| PatchACLs (acls : list string)
| PatchLimits (limits : Quota).

Section WithConstants.
Variable K : Constants.

(** Modelled from the spec: each setter validates its own argument and
    fails with a [ValidationError] naming the field (section 4.1). *)
Definition applyOption (o : Options) (p : Permission) : error + Permission :=
  match o with
  | SetUserId u =>
      inr (mkPermission u (Username p) (Password p) (CreatedAt p)
                        (Ops p) (ACLs p) (Limits p))
  | SetOps l =>
      if forallb (knownOp K) l
      then inr (mkPermission (UserId p) (Username p) (Password p) (CreatedAt p)
                             (Some l) (ACLs p) (Limits p))
      else inl (ValidationError "ops")
  | SetACLs l =>
      if forallb (knownACL K) l
      then inr (mkPermission (UserId p) (Username p) (Password p) (CreatedAt p)
                             (Ops p) (Some l) (Limits p))
      else inl (ValidationError "acls")
  | SetLimits q =>
      if validLimits K q
      then inr (mkPermission (UserId p) (Username p) (Password p) (CreatedAt p)
                             (Ops p) (ACLs p) (Some q))
      else inl (ValidationError "limits")
  end.

Fixpoint applyOptions (opts : list Options) (p : Permission) : error + Permission :=
  match opts with
  | [] => inr p
  | o :: rest =>
      match applyOption o p with
      | inl err => inl err
      | inr p' => applyOptions rest p'
      end
  end.

(** Modelled from the spec: [New(creatorId, options...)] of section 4.1,
    which is not among the sources.  It assigns the generated
    credential pair and timestamp, starts from the creator and the
    defaults, and merges the supplied options over them, failing on
    the first invalid one.  It has no effect outside its result. *)
Definition New (g : Generated) (creator : string) (opts : list Options)
  : error + Permission :=
  applyOptions opts
    (mkPermission creator (genUsername g) (genPassword g) (genNow g)
                  (Some (defaultOps K)) (Some (defaultACLs K))
                  (Some (defaultLimits K))).

(** Modelled from the spec: [GetPatch] of section 4.2, which is not
    among the sources.  Only the explicitly provided fields enter the
    patch, each validated; the first invalid one aborts the whole
    patch.  [UserId] and [Username] of the input are left out of the
    patch (the spec lets the implementation ignore or reject them;
    the model ignores them). *)
Definition patchOps (obj : Permission) (acc : list PatchField)
  : error + list PatchField :=
  match Ops obj with
  | Some l => if forallb (knownOp K) l then inr (acc ++ [PatchOps l])
              else inl (ValidationError "ops")
  | None => inr acc
  end.

Definition patchACLs (obj : Permission) (acc : list PatchField)
  : error + list PatchField :=
  match ACLs obj with
  | Some l => if forallb (knownACL K) l then inr (acc ++ [PatchACLs l])
              else inl (ValidationError "acls")
  | None => inr acc
  end.

Definition patchLimits (obj : Permission) (acc : list PatchField)
  : error + list PatchField :=
  match Limits obj with
  | Some q => if validLimits K q then inr (acc ++ [PatchLimits q])
              else inl (ValidationError "limits")
  | None => inr acc
  end.

Definition GetPatch (obj : Permission) : error + list PatchField :=
  match patchOps obj [] with
  | inl err => inl err
  | inr p1 =>
      match patchACLs obj p1 with
      | inl err => inl err
      | inr p2 => patchLimits obj p2
      end
  end.
End WithConstants.

End permission.

Import permission.

(** ** Requests, effects and the response writer *)

(** The request-scoped context: the value stored under [permission.CtxKey]
    and everything else the guards attach (classifier tags, the resolved
    principal). *)
Record Context : Type := mkContext {
  ctxPermission : option Permission;
  ctxRest : list (string * string)
}.

(** What a handler reads of an [*http.Request]: the route variables of
    [mux.Vars], the result of [r.BasicAuth()], the result of
    [ioutil.ReadAll(r.Body)] and the context. *)
Record Request : Type := mkRequest {
  Vars : gmap string string;
  BasicAuth : option (string * string);
  Body : error + string;
  Ctx : Context
}.

Definition WithContext (r : Request) (c : Context) : Request :=
  mkRequest (Vars r) (BasicAuth r) (Body r) c.

(** Indexing a Go [map[string]string]: a missing key reads as the empty
    string. *)
Definition index (m : gmap string string) (k : string) : string :=
  default EmptyString (m !! k).

(** The guards of the pipeline, in the order of spec section 4.3. *)
Inductive Stage : Type :=
| Classifier
| Credential
| OpCheck
| ACLCheck
| AdminCheck.

(** The four response helpers: [util.WriteBackRaw], [util.WriteBackError],
    [util.WriteBackMessage] and [http.Error]. *)
Inductive Writer : Type := Raw | Err | Message | PlainError.

(** One observable effect of serving a request. *)
Inductive Event : Type :=
| Enter (s : Stage)
| ReadBody
| Printf (line : string)
| Respond (via : Writer) (payload : string) (code : Z)
| EsGetRaw (username : string)
| EsPut (p : Permission)
| EsPatch (username : string) (patch : list PatchField)
| EsDelete (username : string)
| EsNew (url indexName typeName mapping : string).

(** The effects so far, oldest first. *)
Definition World : Type := list Event.

Definition emit (e : Event) (w : World) : World := w ++ [e].

(** *** Observations on a trace *)

Definition isStoreCall (e : Event) : bool :=
  match e with
  | EsGetRaw _ | EsPut _ | EsPatch _ _ | EsDelete _ => true
  | _ => false
  end.

Definition storeCalls (w : World) : list Event := List.filter isStoreCall w.

Definition stageOf (e : Event) : option Stage :=
  match e with Enter s => Some s | _ => None end.

Definition stages (w : World) : list Stage := omap stageOf w.

Definition codeOf (e : Event) : option Z :=
  match e with Respond _ _ c => Some c | _ => None end.

Definition codes (w : World) : list Z := omap codeOf w.

(** The status line the client receives: [net/http] sends the header of
    the first write and ignores the code of any later one. *)
Definition status (w : World) : option Z := head (codes w).

Definition isBodyRead (e : Event) : bool :=
  match e with ReadBody => true | _ => false end.

Definition bodyReads (w : World) : list Event := List.filter isBodyRead w.

Definition isLog (e : Event) : bool :=
  match e with Printf _ => true | _ => false end.

(** The lines written with [log.Printf]. *)
Definition logLines (w : World) : list Event := List.filter isLog w.

(** The code with which the patch and delete handlers answer what the
    dao returned: 200 for [ok && err == nil], 500 otherwise. *)
Definition codeOfStoreAnswer (a : bool * option error) : Z :=
  match a with
  | (true, None) => StatusOK
  | _ => StatusInternalServerError
  end.

(** A decoded body holds an Ops or ACLs value outside the recognised
    categories. *)
Definition hasUnknownCategory (K : Constants) (obj : Permission) : bool :=
  match Ops obj with
  | Some ops => negb (forallb (knownOp K) ops)
  | None => false
  end
  || match ACLs obj with
     | Some acls => negb (forallb (knownACL K) acls)
     | None => false
     end.

(** ** Package [internal/util] and [log] *)

Module util.

(** Modelled from the spec: the response helpers live in [internal/util],
    which is not among the sources.  Each writes one response with the
    given payload and status code (spec sections 6 and 7). *)
Definition WriteBackRaw (raw : string) (code : Z) (w : World) : World :=
  emit (Respond Raw raw code) w.

Definition WriteBackError (msg : string) (code : Z) (w : World) : World :=
  emit (Respond Err msg code) w.

Definition WriteBackMessage (msg : string) (code : Z) (w : World) : World :=
  emit (Respond Message msg code) w.

End util.

Module http.
(** A handler extends the trace of the request it serves. *)
Definition HandlerFunc : Type := Request -> World -> World.

Definition MethodGet : string := "GET".
Definition MethodPut : string := "PUT".
Definition MethodPatch : string := "PATCH".
Definition MethodDelete : string := "DELETE".

(** [http.Error] of the Go library: a plain-text reply with the code. *)
Definition Error (msg : string) (code : Z) (w : World) : World :=
  emit (Respond PlainError msg code) w.
End http.

Module log.
Definition Printf (line : string) (w : World) : World := emit (Printf line) w.
End log.

(** ** Collaborators outside the sources *)

(** The libraries the handlers call on values of the permission package:
    [json.Unmarshal] into a [Permission], [json.Marshal] of one, and the
    [Error()] text of an error. *)
Record Library : Type := {
  Unmarshal : string -> error + Permission;
  Marshal : Permission -> error + string;
  errText : error -> string
}.

(** The dao held in [p.es].  Its methods are defined in the part of the
    package that is not among the sources; each is taken as what it
    answers to one call. *)
Record elasticsearch : Type := {
  getRawPermission : string -> error + string;
  putPermission_es : Permission -> bool * option error;
  patchPermission_es : string -> list PatchField -> bool * option error;
  deletePermission_es : string -> bool * option error
}.

(** The decisions of the guards, which the spec leaves to collaborators:
    the tags the classifier attaches, the context the authenticator
    attaches to a credential pair it accepts, and whether the acting
    principal passes the Op, ACL and Admin checks. *)
Record Decisions : Type := {
  classify : Request -> Context;
  authenticate : string -> string -> Request -> option Context;
  opAllowed : Request -> bool;
  aclAllowed : Request -> bool;
  adminAllowed : Request -> bool
}.

Definition logTag : string := "[permissions]".
Definition pluginName : string := "permissions".
Definition envEsURL : string := "ES_CLUSTER_URL".
Definition envPermissionEsIndex : string := "PERMISSIONS_ES_INDEX".
Definition envPermissionEsType : string := "PERMISSIONS_ES_TYPE".

(** [%v] of an error that may be nil. *)
Definition fmtErr (L : Library) (err : option error) : string :=
  match err with
  | Some e => errText L e
  | None => "<nil>"
  end.

(** ** The handlers *)

Section Handlers.
Variable L : Library.
Variable K : Constants.
Variable g : Generated.
(** The dao of an initialised plugin, [p.es]. *)
Variable es : elasticsearch.

(** [getPermission]: the context permission, when present, is marshalled
    and written; only the marshalling failure returns.  Then the
    permission is fetched from elasticsearch by username. *)
Definition getPermission : http.HandlerFunc := fun r w =>
  let username := index (Vars r) "username" in
  let fetch (w : World) : World :=
    let w := emit (EsGetRaw username) w in
    match getRawPermission es username with
    | inl err =>
        let msg := "permission for " +:+ quoted "username" +:+ "="
                   +:+ quoted username +:+ " not found" in
        let w := log.Printf (logTag +:+ ": " +:+ msg +:+ ": " +:+ errText L err +:+ nl) w in
        util.WriteBackError msg StatusNotFound w
    | inr rawPermission =>
        util.WriteBackRaw rawPermission StatusOK w
    end in
  match ctxPermission (Ctx r) with
  | Some p =>
      match Marshal L p with
      | inl err =>
          let msg := "error parsing the context permissions object" in
          let w := log.Printf (logTag +:+ ": " +:+ msg +:+ ": " +:+ errText L err +:+ nl) w in
          util.WriteBackError msg StatusInternalServerError w
      | inr rawPermission =>
          fetch (util.WriteBackRaw rawPermission StatusOK w)
      end
  | None => fetch w
  end.

(** The options [putPermission] collects from the decoded body, in the
    order of its four tests. *)
Definition putOptions (obj : Permission) : list Options :=
  let opts := [] in
  let opts := if String.eqb (UserId obj) EmptyString then opts
              else opts ++ [SetUserId (UserId obj)] in
  let opts := match Ops obj with
              | Some ops => opts ++ [SetOps ops]
              | None => opts
              end in
  let opts := match ACLs obj with
              | Some acls => opts ++ [SetACLs acls]
              | None => opts
              end in
  let opts := match Limits obj with
              | Some limits => opts ++ [SetLimits limits]
              | None => opts
              end in
  opts.

Definition putPermission : http.HandlerFunc := fun r w =>
  match BasicAuth r with
  | None => util.WriteBackError "credentials not provided" StatusUnauthorized w
  | Some (userId, _) =>
      let w := emit ReadBody w in
      match Body r with
      | inl err =>
          let msg := "can't read body" in
          let w := log.Printf (logTag +:+ ": " +:+ msg +:+ ": " +:+ errText L err +:+ nl) w in
          util.WriteBackError msg StatusBadRequest w
      | inr body =>
          match Unmarshal L body with
          | inl err =>
              let msg := "error parsing request body" in
              let w := log.Printf (logTag +:+ ": " +:+ msg +:+ ": " +:+ errText L err +:+ nl) w in
              http.Error msg StatusBadRequest w
          | inr obj =>
              match New K g userId (putOptions obj) with
              | inl err =>
                  let msg := "error constructing permission object: " +:+ errText L err in
                  let w := log.Printf (logTag +:+ ": " +:+ msg) w in
                  util.WriteBackError msg StatusInternalServerError w
              | inr newPermission =>
                  match Marshal L newPermission with
                  | inl err =>
                      let w := log.Printf (logTag +:+ ": unable to marshal newPermission object: "
                                           +:+ errText L err) w in
                      util.WriteBackMessage "Unable to create permission"
                                            StatusInternalServerError w
                  | inr rawPermission =>
                      let w := emit (EsPut newPermission) w in
                      match putPermission_es es newPermission with
                      | (true, None) => util.WriteBackRaw rawPermission StatusOK w
                      | (_, err) =>
                          let msg := "unable to create permission for user_id=" +:+ userId
                                     +:+ ": " +:+ fmtErr L err +:+ nl in
                          util.WriteBackError msg StatusInternalServerError w
                      end
                  end
              end
          end
      end
  end.

Definition patchPermission : http.HandlerFunc := fun r w =>
  let username := index (Vars r) "username" in
  let w := emit ReadBody w in
  match Body r with
  | inl err =>
      let msg := "can't read body" in
      let w := log.Printf (logTag +:+ ": " +:+ msg +:+ ": " +:+ errText L err +:+ nl) w in
      util.WriteBackError msg StatusBadRequest w
  | inr body =>
      match Unmarshal L body with
      | inl err =>
          let msg := "error parsing request body" in
          let w := log.Printf (logTag +:+ ": " +:+ msg +:+ ": " +:+ errText L err +:+ nl) w in
          util.WriteBackError msg StatusBadRequest w
      | inr obj =>
          match GetPatch K obj with
          | inl err =>
              let w := log.Printf (logTag +:+ ": " +:+ errText L err) w in
              util.WriteBackError (errText L err) StatusBadRequest w
          | inr patch =>
              let w := emit (EsPatch username patch) w in
              match patchPermission_es es username patch with
              | (true, None) =>
                  util.WriteBackMessage "successfully updated permission" StatusOK w
              | (_, err) =>
                  let msg := "error updating permission for username=" +:+ username in
                  let w := log.Printf (logTag +:+ ": " +:+ msg +:+ ": " +:+ fmtErr L err) w in
                  util.WriteBackError msg StatusInternalServerError w
              end
          end
      end
  end.

Definition deletePermission : http.HandlerFunc := fun r w =>
  let username := index (Vars r) "username" in
  let w := emit (EsDelete username) w in
  match deletePermission_es es username with
  | (true, None) =>
      util.WriteBackMessage "successfully deleted permission" StatusOK w
  | (_, err) =>
      let msg := "error deleting permission for " +:+ quoted "username" +:+ "="
                 +:+ quoted username in
      let w := log.Printf (logTag +:+ ": " +:+ msg +:+ ": " +:+ fmtErr L err) w in
      util.WriteBackError msg StatusInternalServerError w
  end.

End Handlers.

(** ** The guards and the route table *)

Module plugin.
Record Route : Type := {
  Name : string;
  Methods : list string;
  Path : string;
  HandlerFunc : http.HandlerFunc;
  Description : string
}.
End plugin.

Section Guards.
Variable D : Decisions.

(** Modelled from the spec: the guards [classifier], [basicAuth],
    [validateOp], [validateACL] and [isAdmin] are defined outside the
    sources.  Following section 4.3, each is entered, decides, and either
    calls the next stage or ends the request with its own failure:
    the classifier only tags the request; the credential check answers
    401 without a parseable or accepted credential pair and otherwise
    attaches the resolved principal; the Op, ACL and Admin checks answer
    403.  The payloads are the names of the error taxonomy of section 7. *)
Definition classifier (next : http.HandlerFunc) : http.HandlerFunc := fun r w =>
  let w := emit (Enter Classifier) w in
  next (WithContext r (classify D r)) w.

Definition basicAuth (next : http.HandlerFunc) : http.HandlerFunc := fun r w =>
  let w := emit (Enter Credential) w in
  match BasicAuth r with
  | None => util.WriteBackError "Unauthenticated" StatusUnauthorized w
  | Some (userId, password) =>
      match authenticate D userId password r with
      | None => util.WriteBackError "Unauthenticated" StatusUnauthorized w
      | Some c => next (WithContext r c) w
      end
  end.

Definition validateOp (next : http.HandlerFunc) : http.HandlerFunc := fun r w =>
  let w := emit (Enter OpCheck) w in
  if opAllowed D r then next r w
  else util.WriteBackError "Forbidden" StatusForbidden w.

Definition validateACL (next : http.HandlerFunc) : http.HandlerFunc := fun r w =>
  let w := emit (Enter ACLCheck) w in
  if aclAllowed D r then next r w
  else util.WriteBackError "Forbidden" StatusForbidden w.

Definition isAdmin (next : http.HandlerFunc) : http.HandlerFunc := fun r w =>
  let w := emit (Enter AdminCheck) w in
  if adminAllowed D r then next r w
  else util.WriteBackError "Forbidden" StatusForbidden w.

Variable L : Library.
Variable K : Constants.
Variable g : Generated.
Variable es : elasticsearch.

(** The route table, as [routes()] nests the guards around each handler. *)
Definition routes : list plugin.Route :=
  [ {| plugin.Name := "Get Permission";
       plugin.Methods := [http.MethodGet];
       plugin.Path := "/_permission/{username}";
       plugin.HandlerFunc :=
         classifier (basicAuth (validateOp (validateACL (getPermission L es))));
       plugin.Description := "Fetch the permission object from the repository" |};
    {| plugin.Name := "Create Permission";
       plugin.Methods := [http.MethodPut];
       plugin.Path := "/_permission";
       plugin.HandlerFunc :=
         classifier (basicAuth (validateOp (validateACL (isAdmin (putPermission L K g es)))));
       plugin.Description := "Create a new permission object in the repository" |};
    {| plugin.Name := "Patch Permission";
       plugin.Methods := [http.MethodPatch];
       plugin.Path := "/_permission/{username}";
       plugin.HandlerFunc :=
         classifier (basicAuth (validateOp (validateACL (isAdmin (patchPermission L K es)))));
       plugin.Description := "Update the permission object in the repository" |};
    {| plugin.Name := "Delete Permission";
       plugin.Methods := [http.MethodDelete];
       plugin.Path := "/_permission/{username}";
       plugin.HandlerFunc :=
         classifier (basicAuth (validateOp (validateACL (isAdmin (deletePermission L es)))));
       plugin.Description := "Delete the permission object in the repository" |} ].

End Guards.

(** The order in which section 4.3 lists the guards. *)
Definition pipeline : list Stage :=
  [Classifier; Credential; OpCheck; ACLCheck; AdminCheck].

(** The request carries a credential pair the authenticator accepts, and
    its principal passes the Op and ACL checks. *)
Definition passesChecks (D : Decisions) (r : Request) : bool :=
  match BasicAuth r with
  | None => false
  | Some (userId, password) =>
      let r1 := WithContext r (classify D r) in
      match authenticate D userId password r1 with
      | None => false
      | Some c =>
          let r2 := WithContext r1 c in
          opAllowed D r2 && aclAllowed D r2
      end
  end.

(** The request as it leaves the credential check: tagged by the
    classifier and bearing the context the authenticator attached; none
    when the credential pair is missing or refused. *)
Definition admitted (D : Decisions) (r : Request) : option Request :=
  match BasicAuth r with
  | None => None
  | Some (userId, password) =>
      let r1 := WithContext r (classify D r) in
      match authenticate D userId password r1 with
      | None => None
      | Some c => Some (WithContext r1 c)
      end
  end.

(** The names of the routes that create, patch and delete. *)
Definition mutatingRoutes : list string :=
  ["Create Permission"; "Patch Permission"; "Delete Permission"].

(** The variables [InitFunc] requires, in the order it reads them. *)
Definition requiredEnv : list string :=
  [envEsURL; envPermissionEsIndex; envPermissionEsType].

(** ** Initialisation *)

(** The plugin value: [es] is nil until [InitFunc] has set it. *)
Record Permissions : Type := mkPermissions { es_dao : option elasticsearch }.

Section Init.
Variable L : Library.
(** [NewES] and [permission.IndexMapping] are defined outside the sources:
    the constructor is taken as what it answers, the mapping as a
    constant. *)
Variable NewES : string -> string -> string -> string -> option elasticsearch * option error.
Variable IndexMapping : string.

(** [InitFunc] over the process environment [env] (a variable that is
    not set reads as the empty string, as [os.Getenv] gives it). *)
Definition InitFunc (env : gmap string string) (p : Permissions) (w : World)
  : Permissions * option error * World :=
  let w := log.Printf (logTag +:+ ": initializing plugin: " +:+ pluginName +:+ nl) w in
  let url := index env envEsURL in
  if String.eqb url EmptyString then (p, Some (EnvVarNotSetError envEsURL), w) else
  let indexName := index env envPermissionEsIndex in
  if String.eqb indexName EmptyString then (p, Some (EnvVarNotSetError envPermissionEsIndex), w) else
  let typeName := index env envPermissionEsType in
  if String.eqb typeName EmptyString then (p, Some (EnvVarNotSetError envPermissionEsType), w) else
  let mapping := IndexMapping in
  let w := emit (EsNew url indexName typeName mapping) w in
  let '(dao, err) := NewES url indexName typeName mapping in
  let p := mkPermissions dao in
  match err with
  | Some e =>
      (p, Some (Foreign (logTag +:+ ": error initializing permission's elasticsearch dao: "
                         +:+ errText L e)), w)
  | None => (p, None, w)
  end.

End Init.

(** ** A concrete deployment

    One choice of the collaborators, used to run the handlers on concrete
    requests. *)

Module Demo.

Definition memberb (s : string) (l : list string) : bool := existsb (String.eqb s) l.

Definition K : Constants :=
  {| knownOp := fun s => memberb s ["read"; "write"; "delete"];
     knownACL := fun s => memberb s ["search"; "docs"];
     validLimits := forallb (fun kv : string * Z => 0 <=? snd kv);
     defaultOps := ["read"];
     defaultACLs := ["search"];
     defaultLimits := [("ttl_sec", 3600)] |}.

Definition g : Generated :=
  {| genUsername := "u-7f3a"; genPassword := "p-91c2"; genNow := 1540000000 |}.

Definition draft : Permission :=
  mkPermission EmptyString EmptyString EmptyString 0 None None None.

(** Request bodies, as JSON text. *)
Definition bodyEmpty : string := "{}".
Definition bodyUserId : string :=
  "{" +:+ quoted "user_id" +:+ ":" +:+ quoted "mallory" +:+ "}".
Definition bodyScenario : string :=
  "{" +:+ quoted "ops" +:+ ":[" +:+ quoted "read" +:+ "],"
      +:+ quoted "acls" +:+ ":[" +:+ quoted "search" +:+ "]}".
Definition bodyBogusOp : string :=
  "{" +:+ quoted "ops" +:+ ":[" +:+ quoted "bogus" +:+ "]}".
Definition bodyNoOps : string := "{" +:+ quoted "ops" +:+ ":[]}".

(** [json.Unmarshal] on the bodies above; any other text is rejected. *)
Definition unmarshal (body : string) : error + Permission :=
  if String.eqb body bodyEmpty then inr draft
  else if String.eqb body bodyUserId then
    inr (mkPermission "mallory" EmptyString EmptyString 0 None None None)
  else if String.eqb body bodyScenario then
    inr (mkPermission EmptyString EmptyString EmptyString 0
                      (Some ["read"]) (Some ["search"]) None)
  else if String.eqb body bodyBogusOp then
    inr (mkPermission EmptyString EmptyString EmptyString 0 (Some ["bogus"]) None None)
  else if String.eqb body bodyNoOps then
    inr (mkPermission EmptyString EmptyString EmptyString 0 (Some []) None None)
  else inl (Foreign "invalid character").

Definition marshal (p : Permission) : error + string :=
  inr ("{" +:+ quoted "user_id" +:+ ":" +:+ quoted (UserId p) +:+ ","
           +:+ quoted "username" +:+ ":" +:+ quoted (Username p) +:+ "}").

Definition text (e : error) : string :=
  match e with
  | EnvVarNotSetError name => name +:+ " env var not set"
  | ValidationError field => "invalid " +:+ field
  | NotFoundError key => key +:+ " not found"
  | Foreign t => t
  end.

Definition L : Library :=
  {| Unmarshal := unmarshal; Marshal := marshal; errText := text |}.

(** A library whose [json.Marshal] fails on every permission. *)
Definition LnoMarshal : Library :=
  {| Unmarshal := unmarshal;
     Marshal := fun _ => inl (Foreign "unsupported value");
     errText := text |}.

(** A dao whose index holds no permission. *)
Definition esEmpty : elasticsearch :=
  {| getRawPermission := fun u => inl (NotFoundError u);
     putPermission_es := fun _ => (true, None);
     patchPermission_es := fun u _ => (false, Some (NotFoundError u));
     deletePermission_es := fun u => (false, Some (NotFoundError u)) |}.

(** A dao whose cluster cannot be reached. *)
Definition esDown : elasticsearch :=
  {| getRawPermission := fun _ => inl (Foreign "connection refused");
     putPermission_es := fun _ => (false, Some (Foreign "connection refused"));
     patchPermission_es := fun _ _ => (false, Some (Foreign "connection refused"));
     deletePermission_es := fun _ => (false, Some (Foreign "connection refused")) |}.

(** A dao holding one permission, under the username bob. *)
Definition esBob : elasticsearch :=
  {| getRawPermission := fun u =>
       if String.eqb u "bob" then inr ("{" +:+ quoted "username" +:+ ":" +:+ quoted "bob" +:+ "}")
       else inl (NotFoundError u);
     putPermission_es := fun _ => (true, None);
     patchPermission_es := fun u _ =>
       if String.eqb u "bob" then (true, None) else (false, Some (NotFoundError u));
     deletePermission_es := fun u =>
       if String.eqb u "bob" then (true, None) else (false, Some (NotFoundError u)) |}.

Definition noContext : Context := mkContext None [].

(** Guards that accept the pair alice/secret as an administrator and
    carol/secret as a plain principal. *)
Definition D : Decisions :=
  {| classify := fun r => Ctx r;
     authenticate := fun u pw r =>
       if String.eqb pw "secret" then Some (mkContext None [("user", u)]) else None;
     opAllowed := fun _ => true;
     aclAllowed := fun _ => true;
     adminAllowed := fun r => memberb "alice" (map snd (ctxRest (Ctx r))) |}.

Definition request (auth : option (string * string)) (username : string)
    (body : string) : Request :=
  mkRequest (if String.eqb username EmptyString then ∅ else {[ "username" := username ]})
            auth (inr body) noContext.

Definition alice : option (string * string) := Some ("alice", "secret").
Definition carol : option (string * string) := Some ("carol", "secret").

Definition bobsPermission : Permission :=
  mkPermission "alice" "bob" "p-0000" 1530000000 (Some ["read"]) (Some ["search"]) None.

(** The process environment with all three variables set. *)
Definition env : gmap string string :=
  {[ envEsURL := "http://localhost:9200";
     envPermissionEsIndex := ".permissions";
     envPermissionEsType := "_doc" ]}.

Definition newES (url indexName typeName mapping : string)
  : option elasticsearch * option error := (Some esEmpty, None).

(** The routes of this deployment, by position in the table. *)
Definition noRoute : plugin.Route :=
  {| plugin.Name := EmptyString; plugin.Methods := []; plugin.Path := EmptyString;
     plugin.HandlerFunc := fun _ w => w; plugin.Description := EmptyString |}.

Definition getRoute : plugin.Route := nth 0 (routes D L K g esBob) noRoute.
Definition createRoute : plugin.Route := nth 1 (routes D L K g esBob) noRoute.
Definition patchRoute : plugin.Route := nth 2 (routes D L K g esBob) noRoute.
Definition deleteRoute : plugin.Route := nth 3 (routes D L K g esBob) noRoute.

(** The request as the guards of this deployment hand it on, once the
    pair of [user] is accepted. *)
Definition admittedAs (r : Request) (user : string) : Request :=
  WithContext (WithContext r (Ctx r)) (mkContext None [("user", user)]).

(** The permission a create request of alice with the body [bodyUserId]
    leads to. *)
Definition mallorysPermission : Permission :=
  mkPermission "mallory" "u-7f3a" "p-91c2" 1540000000
               (Some ["read"]) (Some ["search"]) (Some [("ttl_sec", 3600)]).

(** A fetch request for bob whose context already bears a permission. *)
Definition fetchWithContext : Request :=
  mkRequest {[ "username" := "bob" ]} alice (inr bodyEmpty)
            (mkContext (Some bobsPermission) []).

End Demo.

(** * Properties *)

(** ** Reading a trace *)

Lemma codes_emit (e : Event) (w : World) :
  codes (emit e w) = codes w ++ match codeOf e with Some c => [c] | None => [] end.
Proof.
  unfold codes, emit. rewrite omap_app. simpl. destruct (codeOf e); reflexivity.
Qed.

Lemma stages_emit (e : Event) (w : World) :
  stages (emit e w) = stages w ++ match stageOf e with Some s => [s] | None => [] end.
Proof.
  unfold stages, emit. rewrite omap_app. simpl. destruct (stageOf e); reflexivity.
Qed.

Lemma storeCalls_emit (e : Event) (w : World) :
  storeCalls (emit e w) = storeCalls w ++ (if isStoreCall e then [e] else []).
Proof.
  unfold storeCalls, emit. rewrite List.filter_app. simpl.
  destruct (isStoreCall e); reflexivity.
Qed.

Lemma bodyReads_emit (e : Event) (w : World) :
  bodyReads (emit e w) = bodyReads w ++ (if isBodyRead e then [e] else []).
Proof.
  unfold bodyReads, emit. rewrite List.filter_app. simpl.
  destruct (isBodyRead e); reflexivity.
Qed.

(** Unfolds the response and log helpers and pushes an observation
    through every event appended to the trace. *)
Ltac observe :=
  unfold util.WriteBackRaw, util.WriteBackError, util.WriteBackMessage,
         http.Error, log.Printf;
  repeat (rewrite codes_emit || rewrite stages_emit
          || rewrite storeCalls_emit || rewrite bodyReads_emit);
  simpl; rewrite ?app_nil_r, <- ?app_assoc; simpl.

(** ** Construction from the options of a request body *)

Section Construction.
Variable K : Constants.
Variable g : Generated.

(** Splits on every test met while the options are applied. *)
Ltac run_options H :=
  simpl in H;
  repeat match type of H with
         | context [if ?c then _ else _] => destruct c eqn:?; simpl in H
         end;
  try discriminate H.

(** The UserId of a permission built from the options of a body: the
    body's own when it gives one, the creator's otherwise. *)
Lemma New_putOptions_UserId (creator : string) (obj p : Permission) :
  New K g creator (putOptions obj) = inr p ->
  UserId p = if String.eqb (UserId obj) EmptyString then creator else UserId obj.
Proof.
  unfold New, putOptions. intros H.
  destruct (String.eqb (UserId obj) EmptyString);
    destruct (Ops obj), (ACLs obj), (Limits obj);
    run_options H; inversion H; reflexivity.
Qed.

(** A field the body leaves out keeps its default; one it provides is
    taken as provided. *)
Lemma New_putOptions_fields (creator : string) (obj p : Permission) :
  New K g creator (putOptions obj) = inr p ->
  Ops p = Some (default (defaultOps K) (Ops obj))
  /\ ACLs p = Some (default (defaultACLs K) (ACLs obj))
  /\ Limits p = Some (default (defaultLimits K) (Limits obj)).
Proof.
  unfold New, putOptions. intros H.
  destruct (String.eqb (UserId obj) EmptyString);
    destruct (Ops obj), (ACLs obj), (Limits obj);
    run_options H; inversion H; auto.
Qed.

(** Construction rejects a body with an unrecognised category. *)
Lemma New_rejects_unknown_category (creator : string) (obj : Permission) :
  hasUnknownCategory K obj = true ->
  exists field, New K g creator (putOptions obj) = inl (ValidationError field).
Proof.
  unfold hasUnknownCategory, New, putOptions. intros H.
  destruct (String.eqb (UserId obj) EmptyString);
    destruct (Ops obj) as [ops|], (ACLs obj) as [acls|], (Limits obj);
    simpl in H |- *;
    try destruct (forallb (knownOp K) ops);
    try destruct (forallb (knownACL K) acls);
    simpl in H |- *; try discriminate H; eauto.
Qed.

(** So does the patch builder. *)
Lemma GetPatch_rejects_unknown_category (obj : Permission) :
  hasUnknownCategory K obj = true ->
  exists field, GetPatch K obj = inl (ValidationError field).
Proof.
  unfold hasUnknownCategory, GetPatch, patchOps, patchACLs, patchLimits. intros H.
  destruct (Ops obj) as [ops|], (ACLs obj) as [acls|], (Limits obj);
    simpl in H |- *;
    try destruct (forallb (knownOp K) ops);
    try destruct (forallb (knownACL K) acls);
    simpl in H |- *; try discriminate H; eauto.
Qed.

End Construction.

(** ** The handlers taken alone *)

Section HandlerProperties.
Variable L : Library.
Variable K : Constants.
Variable g : Generated.
Variable es : elasticsearch.

(** No handler enters a guard: the stages of a trace are those the
    guards recorded. *)
Lemma getPermission_stages r w : stages (getPermission L es r w) = stages w.
Proof.
  unfold getPermission.
  destruct (ctxPermission (Ctx r)) as [p|]; [destruct (Marshal L p)|];
    try destruct (getRawPermission es (index (Vars r) "username"));
    observe; reflexivity.
Qed.

Lemma putPermission_stages r w : stages (putPermission L K g es r w) = stages w.
Proof.
  unfold putPermission.
  destruct (BasicAuth r) as [[userId pw]|]; [|observe; reflexivity].
  destruct (Body r) as [e|body]; [observe; reflexivity|].
  destruct (Unmarshal L body) as [e|obj]; [observe; reflexivity|].
  destruct (New K g userId (putOptions obj)) as [e|p]; [observe; reflexivity|].
  destruct (Marshal L p) as [e|raw]; [observe; reflexivity|].
  destruct (putPermission_es es p) as [[|] [e|]]; observe; reflexivity.
Qed.

Lemma patchPermission_stages r w : stages (patchPermission L K es r w) = stages w.
Proof.
  unfold patchPermission.
  destruct (Body r) as [e|body]; [observe; reflexivity|].
  destruct (Unmarshal L body) as [e|obj]; [observe; reflexivity|].
  destruct (GetPatch K obj) as [e|patch]; [observe; reflexivity|].
  destruct (patchPermission_es es (index (Vars r) "username") patch) as [[|] [e|]];
    observe; reflexivity.
Qed.

Lemma deletePermission_stages r w : stages (deletePermission L es r w) = stages w.
Proof.
  unfold deletePermission.
  destruct (deletePermission_es es (index (Vars r) "username")) as [[|] [e|]];
    observe; reflexivity.
Qed.

(** C8.  A create request without a parseable basic-auth pair is answered
    by [putPermission] itself with 401 "credentials not provided", and
    that single response is all the handler does: the body is not read,
    no permission is built or stored. *)
Theorem putPermission_requires_credentials (r : Request) (w : World) :
  BasicAuth r = None ->
  putPermission L K g es r w
    = util.WriteBackError "credentials not provided" StatusUnauthorized w
  /\ codes (putPermission L K g es r w) = codes w ++ [StatusUnauthorized]
  /\ bodyReads (putPermission L K g es r w) = bodyReads w
  /\ storeCalls (putPermission L K g es r w) = storeCalls w.
Proof.
  intros Hauth. unfold putPermission. rewrite Hauth.
  repeat split; observe; reflexivity.
Qed.

(** C3 (evaluation of the code).  With a permission in the request
    context that marshals, [getPermission] writes it with 200 and then
    goes on: it calls the dao for the username and writes a second
    response. *)
Theorem getPermission_context_still_fetches (r : Request) (w : World)
    (p : Permission) (raw : string) :
  ctxPermission (Ctx r) = Some p ->
  Marshal L p = inr raw ->
  storeCalls (getPermission L es r w)
    = storeCalls w ++ [EsGetRaw (index (Vars r) "username")]
  /\ exists second,
       codes (getPermission L es r w) = codes w ++ [StatusOK; second].
Proof.
  intros Hctx Hm. unfold getPermission. rewrite Hctx, Hm.
  destruct (getRawPermission es (index (Vars r) "username")) as [e|stored].
  - split; [observe; reflexivity|]. exists StatusNotFound. observe. reflexivity.
  - split; [observe; reflexivity|]. exists StatusOK. observe. reflexivity.
Qed.

(** C4 (evaluation of the code).  Without a context permission, every
    error of the dao, whatever it is, makes [getPermission] answer 404. *)
Theorem getPermission_any_store_error_is_404 (r : Request) (w : World) (err : error) :
  ctxPermission (Ctx r) = None ->
  getRawPermission es (index (Vars r) "username") = inl err ->
  codes (getPermission L es r w) = codes w ++ [StatusNotFound]
  /\ storeCalls (getPermission L es r w)
       = storeCalls w ++ [EsGetRaw (index (Vars r) "username")].
Proof.
  intros Hctx Hget. unfold getPermission. rewrite Hctx, Hget.
  split; observe; reflexivity.
Qed.

Lemma codeOfStoreAnswer_not_404 a : codeOfStoreAnswer a <> StatusNotFound.
Proof. destruct a as [[|] [e|]]; discriminate. Qed.

(** C5 (amended).  A delete request is answered 200 when the dao reports
    success and 500 for every other answer of the dao; so is a patch
    request whose body yields a patch.  An absent username is such
    another answer: neither handler answers 404. *)
Theorem patch_delete_store_failure_is_500 (r : Request) (w : World) :
  let username := index (Vars r) "username" in
  (codes (deletePermission L es r w)
     = codes w ++ [codeOfStoreAnswer (deletePermission_es es username)]
   /\ codeOfStoreAnswer (deletePermission_es es username) <> StatusNotFound)
  /\ (forall body obj patch,
        Body r = inr body -> Unmarshal L body = inr obj -> GetPatch K obj = inr patch ->
        codes (patchPermission L K es r w)
          = codes w ++ [codeOfStoreAnswer (patchPermission_es es username patch)]
        /\ codeOfStoreAnswer (patchPermission_es es username patch) <> StatusNotFound).
Proof.
  intros username. split.
  - split; [|apply codeOfStoreAnswer_not_404].
    unfold deletePermission. fold username.
    destruct (deletePermission_es es username) as [[|] [e|]]; observe; reflexivity.
  - intros body obj patch Hb Hu Hp.
    split; [|apply codeOfStoreAnswer_not_404].
    unfold patchPermission. fold username. rewrite Hb, Hu, Hp.
    destruct (patchPermission_es es username patch) as [[|] [e|]]; observe; reflexivity.
Qed.

(** What [putPermission] does once the body is decoded, by the outcome
    of construction. *)
Lemma putPermission_after_decoding (r : Request) (w : World)
    (userId pw body : string) (obj : Permission) :
  BasicAuth r = Some (userId, pw) ->
  Body r = inr body ->
  Unmarshal L body = inr obj ->
  match New K g userId (putOptions obj) with
  | inl err =>
      codes (putPermission L K g es r w) = codes w ++ [StatusInternalServerError]
      /\ storeCalls (putPermission L K g es r w) = storeCalls w
  | inr p =>
      match Marshal L p with
      | inl _ =>
          codes (putPermission L K g es r w) = codes w ++ [StatusInternalServerError]
          /\ storeCalls (putPermission L K g es r w) = storeCalls w
      | inr _ =>
          codes (putPermission L K g es r w)
            = codes w ++ [codeOfStoreAnswer (putPermission_es es p)]
          /\ storeCalls (putPermission L K g es r w) = storeCalls w ++ [EsPut p]
      end
  end.
Proof.
  intros Ha Hb Hu. unfold putPermission. rewrite Ha, Hb, Hu.
  destruct (New K g userId (putOptions obj)) as [e|p]; [split; observe; reflexivity|].
  destruct (Marshal L p) as [e|raw]; [split; observe; reflexivity|].
  destruct (putPermission_es es p) as [[|] [e|]]; split; observe; reflexivity.
Qed.

(** C1 (amended).  The creator handed to construction is the caller's
    basic-auth identifier, and the permission that [putPermission]
    stores is the one so constructed; its UserId is that identifier when
    the body gives no [user_id], and the body's [user_id] when it gives
    a non-empty one. *)
Theorem putPermission_stored_UserId (r : Request) (w : World)
    (userId pw body : string) (obj p : Permission) :
  BasicAuth r = Some (userId, pw) ->
  Body r = inr body ->
  Unmarshal L body = inr obj ->
  In (EsPut p) (storeCalls (putPermission L K g es r w)) ->
  In (EsPut p) (storeCalls w)
  \/ (New K g userId (putOptions obj) = inr p
      /\ UserId p = if String.eqb (UserId obj) EmptyString then userId else UserId obj).
Proof.
  intros Ha Hb Hu Hin.
  pose proof (putPermission_after_decoding r w userId pw body obj Ha Hb Hu) as Hrun.
  destruct (New K g userId (putOptions obj)) as [e|p'] eqn:Hnew.
  - destruct Hrun as [_ Hs]. rewrite Hs in Hin. left. exact Hin.
  - destruct (Marshal L p') as [e|raw].
    + destruct Hrun as [_ Hs]. rewrite Hs in Hin. left. exact Hin.
    + destruct Hrun as [_ Hs]. rewrite Hs in Hin.
      apply in_app_or in Hin. destruct Hin as [Hin|Hin]; [left; exact Hin|].
      right. destruct Hin as [Heq|[]]. inversion Heq; subst p'.
      split; [reflexivity|]. eapply New_putOptions_UserId; eassumption.
Qed.

(** C2 (evaluation of the code, create path).  A create request whose
    decoded body holds an unrecognised Ops or ACLs value is answered
    with 500, not 400; the dao is not called. *)
Theorem putPermission_unknown_category_is_500 (r : Request) (w : World)
    (userId pw body : string) (obj : Permission) :
  BasicAuth r = Some (userId, pw) ->
  Body r = inr body ->
  Unmarshal L body = inr obj ->
  hasUnknownCategory K obj = true ->
  codes (putPermission L K g es r w) = codes w ++ [StatusInternalServerError]
  /\ storeCalls (putPermission L K g es r w) = storeCalls w.
Proof.
  intros Ha Hb Hu Hbad.
  pose proof (putPermission_after_decoding r w userId pw body obj Ha Hb Hu) as Hrun.
  destruct (New_rejects_unknown_category K g userId obj Hbad) as [field Hnew].
  rewrite Hnew in Hrun. exact Hrun.
Qed.

(** The patch path of the same property: 400, and the dao is not called. *)
Lemma patchPermission_unknown_category_is_400 (r : Request) (w : World)
    (body : string) (obj : Permission) :
  Body r = inr body ->
  Unmarshal L body = inr obj ->
  hasUnknownCategory K obj = true ->
  codes (patchPermission L K es r w) = codes w ++ [StatusBadRequest]
  /\ storeCalls (patchPermission L K es r w) = storeCalls w.
Proof.
  intros Hb Hu Hbad.
  destruct (GetPatch_rejects_unknown_category K obj Hbad) as [field Hp].
  unfold patchPermission. rewrite Hb, Hu, Hp. split; observe; reflexivity.
Qed.

(** Decides a statement on [putOptions] by the shape of the body. *)
Ltac by_fields obj :=
  unfold putOptions;
  destruct (String.eqb (UserId obj) EmptyString);
  destruct (Ops obj), (ACLs obj), (Limits obj); simpl;
  intuition congruence.

(** C10.  Among the options [putPermission] hands to construction, a
    setter for Ops, ACLs or Limits is present exactly when the decoded
    body has that field non-nil, and then it carries the body's value
    unchanged.  In particular an empty list is forwarded as an empty list,
    while an absent field yields no setter at all. *)
Theorem putOptions_absent_or_verbatim (obj : Permission) :
  (forall ops, In (SetOps ops) (putOptions obj) <-> Ops obj = Some ops)
  /\ (forall acls, In (SetACLs acls) (putOptions obj) <-> ACLs obj = Some acls)
  /\ (forall limits, In (SetLimits limits) (putOptions obj) <-> Limits obj = Some limits)
  /\ (Ops obj = Some [] -> In (SetOps []) (putOptions obj))
  /\ (Ops obj = None -> forall ops, ~ In (SetOps ops) (putOptions obj)).
Proof.
  split; [intros ops; by_fields obj|].
  split; [intros acls; by_fields obj|].
  split; [intros limits; by_fields obj|].
  split; [intros Hsome; by_fields obj|].
  intros Hnone ops; by_fields obj.
Qed.

End HandlerProperties.

(** ** The routes *)

Section RouteProperties.
Variable D : Decisions.
Variable L : Library.
Variable K : Constants.
Variable g : Generated.
Variable es : elasticsearch.

(** The nesting of every route: the four guards, then the Admin check
    or not, then a handler that enters no guard itself. *)
Lemma guarded_stages (admin : bool) (h : http.HandlerFunc) (r : Request) (w : World) :
  (forall r' w', stages (h r' w') = stages w') ->
  let chain :=
    classifier D (basicAuth D (validateOp D (validateACL D
      (if admin then isAdmin D h else h)))) in
  exists s,
    stages (chain r w) = stages w ++ s
    /\ s `prefix_of` pipeline
    /\ (BasicAuth r = None ->
        s = [Classifier; Credential]
        /\ codes (chain r w) = codes w ++ [StatusUnauthorized]
        /\ storeCalls (chain r w) = storeCalls w)
    /\ (In AdminCheck s <-> admin = true /\ passesChecks D r = true).
Proof.
  intros Hh chain. subst chain.
  unfold classifier, basicAuth, validateOp, validateACL, passesChecks. simpl.
  destruct (BasicAuth r) as [[userId password]|].
  2:{ exists [Classifier; Credential]. observe.
      split; [reflexivity|]. split; [by exists [OpCheck; ACLCheck; AdminCheck]|].
      split; [auto|]. simpl. intuition discriminate. }
  destruct (authenticate D userId password _) as [c|].
  2:{ exists [Classifier; Credential]. observe.
      split; [reflexivity|]. split; [by exists [OpCheck; ACLCheck; AdminCheck]|].
      split; [discriminate|]. simpl. intuition discriminate. }
  destruct (opAllowed D _).
  2:{ exists [Classifier; Credential; OpCheck]. observe.
      split; [reflexivity|]. split; [by exists [ACLCheck; AdminCheck]|].
      split; [discriminate|]. simpl. intuition discriminate. }
  destruct (aclAllowed D _).
  2:{ exists [Classifier; Credential; OpCheck; ACLCheck]. observe.
      split; [reflexivity|]. split; [by exists [AdminCheck]|].
      split; [discriminate|]. simpl. intuition discriminate. }
  destruct admin.
  - exists pipeline. unfold isAdmin.
    split.
    + destruct (adminAllowed D _); [rewrite Hh|]; observe; reflexivity.
    + split; [by exists []|]. split; [discriminate|]. simpl. intuition.
  - exists [Classifier; Credential; OpCheck; ACLCheck]. rewrite Hh. observe.
    split; [reflexivity|]. split; [by exists [AdminCheck]|].
    split; [discriminate|]. simpl. intuition discriminate.
Qed.

Lemma passesChecks_admitted (r : Request) :
  passesChecks D r = true
  <-> exists r2, admitted D r = Some r2
                 /\ opAllowed D r2 = true /\ aclAllowed D r2 = true.
Proof.
  unfold passesChecks, admitted.
  destruct (BasicAuth r) as [[userId password]|]; simpl;
    [|split; [discriminate | intros (r2 & Heq & _); discriminate]].
  destruct (authenticate D userId password _) as [c|];
    [|split; [discriminate | intros (r2 & Heq & _); discriminate]].
  rewrite andb_true_iff. split.
  - intros [Hop Hacl]. eexists. eauto.
  - intros (r2 & Heq & Hop & Hacl). inversion Heq; subst r2. auto.
Qed.

(** The four guards every route nests, run on a request: what they
    record, where they stop, and the request and trace they hand on. *)
Lemma guarded_run (next : http.HandlerFunc) (r : Request) (w : World) :
  classifier D (basicAuth D (validateOp D (validateACL D next))) r w
  = match admitted D r with
    | None =>
        util.WriteBackError "Unauthenticated" StatusUnauthorized
          (w ++ [Enter Classifier; Enter Credential])
    | Some r2 =>
        if opAllowed D r2 then
          if aclAllowed D r2 then
            next r2 (w ++ [Enter Classifier; Enter Credential; Enter OpCheck; Enter ACLCheck])
          else
            util.WriteBackError "Forbidden" StatusForbidden
              (w ++ [Enter Classifier; Enter Credential; Enter OpCheck; Enter ACLCheck])
        else
          util.WriteBackError "Forbidden" StatusForbidden
            (w ++ [Enter Classifier; Enter Credential; Enter OpCheck])
    end.
Proof.
  unfold classifier, basicAuth, validateOp, validateACL, admitted, emit. simpl.
  destruct (BasicAuth r) as [[userId password]|];
    [|rewrite <- !app_assoc; reflexivity].
  destruct (authenticate D userId password _) as [c|];
    [|rewrite <- !app_assoc; reflexivity].
  destruct (opAllowed D _); [|rewrite <- !app_assoc; reflexivity].
  destruct (aclAllowed D _); rewrite <- !app_assoc; reflexivity.
Qed.

Lemma stages_app (w v : World) : stages (w ++ v) = stages w ++ stages v.
Proof. unfold stages. apply omap_app. Qed.

(** Settles one direction of "the stage is in this list exactly when the
    guards before it passed", the decisions being in the context. *)
Ltac decide_stage :=
  simpl;
  match goal with
  | |- _ -> exists _, _ => intros _; solve [eauto 8]
  | |- _ -> _ /\ _ => intros _; solve [eauto 8]
  | |- _ -> _ \/ _ => intros _; solve [auto 8]
  | |- _ -> _ =>
      let H := fresh in
      intros H; exfalso;
      first [ solve [intuition discriminate]
            | repeat match goal with
                     | E : ex _ |- _ => destruct E
                     | E : _ /\ _ |- _ => destruct E
                     end; congruence ]
  end.

(** How far a request gets in a nesting of the guards: each stage is
    entered exactly when every guard before it let the request pass. *)
Lemma guarded_entered (admin : bool) (h : http.HandlerFunc) (r : Request) (w : World) :
  (forall r' w', stages (h r' w') = stages w') ->
  let chain :=
    classifier D (basicAuth D (validateOp D (validateACL D
      (if admin then isAdmin D h else h)))) in
  exists s,
    stages (chain r w) = stages w ++ s
    /\ s `prefix_of` pipeline
    /\ In Classifier s
    /\ In Credential s
    /\ (In OpCheck s <-> exists r2, admitted D r = Some r2)
    /\ (In ACLCheck s <-> exists r2, admitted D r = Some r2 /\ opAllowed D r2 = true)
    /\ (In AdminCheck s <->
        admin = true
        /\ exists r2, admitted D r = Some r2
                      /\ opAllowed D r2 = true /\ aclAllowed D r2 = true).
Proof.
  intros Hh chain. subst chain. rewrite guarded_run.
  destruct (admitted D r) as [r2|] eqn:Had.
  2:{ exists [Classifier; Credential]. observe. rewrite stages_app. simpl.
      split; [reflexivity|]. split; [by exists [OpCheck; ACLCheck; AdminCheck]|].
      split; [auto|]. split; [auto|]. split; [split; decide_stage|]. split; split; decide_stage. }
  destruct (opAllowed D r2) eqn:Hop.
  2:{ exists [Classifier; Credential; OpCheck]. observe. rewrite stages_app. simpl.
      split; [reflexivity|]. split; [by exists [ACLCheck; AdminCheck]|].
      split; [auto|]. split; [auto|]. split; [split; decide_stage|]. split; split; decide_stage. }
  destruct (aclAllowed D r2) eqn:Hacl.
  2:{ exists [Classifier; Credential; OpCheck; ACLCheck]. observe.
      rewrite stages_app. simpl.
      split; [reflexivity|]. split; [by exists [AdminCheck]|].
      split; [auto|]. split; [auto|]. split; [split; decide_stage|]. split; split; decide_stage. }
  destruct admin.
  - exists pipeline. split.
    + unfold isAdmin. destruct (adminAllowed D r2); [rewrite Hh|];
        observe; rewrite stages_app; simpl; rewrite <- ?app_assoc; reflexivity.
    + split; [by exists []|]. unfold pipeline.
      split; [simpl; auto|]. split; [simpl; auto|]. split; [split; decide_stage|]. split; split; decide_stage.
  - exists [Classifier; Credential; OpCheck; ACLCheck]. rewrite Hh, stages_app. simpl.
    split; [reflexivity|]. split; [by exists [AdminCheck]|].
    split; [auto|]. split; [auto|]. split; [split; decide_stage|]. split; split; decide_stage.
Qed.

(** Settles the facts on the name and method of one route of the table. *)
Ltac table_facts :=
  unfold mutatingRoutes; simpl;
  intuition (discriminate || congruence).

(** The table, route by route: which handler it serves, and that the
    Admin check is nested in all but the route of method GET. *)
Lemma routes_table (rt : plugin.Route) :
  In rt (routes D L K g es) ->
  exists (admin : bool) (h : http.HandlerFunc),
    plugin.HandlerFunc rt
      = classifier D (basicAuth D (validateOp D (validateACL D
          (if admin then isAdmin D h else h))))
    /\ (forall r w, stages (h r w) = stages w)
    /\ (admin = true <-> In (plugin.Name rt) mutatingRoutes)
    /\ (admin = true <-> plugin.Methods rt <> [http.MethodGet])
    /\ (plugin.Methods rt = [http.MethodGet] -> h = getPermission L es)
    /\ (plugin.Methods rt = [http.MethodPut] -> h = putPermission L K g es)
    /\ (plugin.Methods rt = [http.MethodPatch] -> h = patchPermission L K es)
    /\ (plugin.Methods rt = [http.MethodDelete] -> h = deletePermission L es).
Proof.
  unfold routes. simpl.
  intros [<-|[<-|[<-|[<-|[]]]]]; simpl.
  - exists false, (getPermission L es).
    split; [reflexivity|]. split; [apply getPermission_stages|]. table_facts.
  - exists true, (putPermission L K g es).
    split; [reflexivity|]. split; [apply putPermission_stages|]. table_facts.
  - exists true, (patchPermission L K es).
    split; [reflexivity|]. split; [apply patchPermission_stages|]. table_facts.
  - exists true, (deletePermission L es).
    split; [reflexivity|]. split; [apply deletePermission_stages|]. table_facts.
Qed.

(** C6.  The table has four routes, and on every one of them the guards
    are entered in the order Classifier, credential check, Op check, ACL
    check, Admin check: the stages a request enters are an initial
    segment of that list, and each stage is entered exactly when every
    guard before it let the request pass (the Admin check only on the
    routes whose method is not GET).  A request without a credential pair
    enters the first two only, is answered 401, and reaches neither a
    later guard nor the dao. *)
Theorem routes_guard_order (r : Request) (w : World) :
  length (routes D L K g es) = 4%nat
  /\ forall rt, In rt (routes D L K g es) ->
     exists s,
       stages (plugin.HandlerFunc rt r w) = stages w ++ s
       /\ s `prefix_of` pipeline
       /\ In Classifier s
       /\ In Credential s
       /\ (In OpCheck s <-> exists r2, admitted D r = Some r2)
       /\ (In ACLCheck s <->
           exists r2, admitted D r = Some r2 /\ opAllowed D r2 = true)
       /\ (In AdminCheck s <->
           plugin.Methods rt <> [http.MethodGet]
           /\ exists r2, admitted D r = Some r2
                         /\ opAllowed D r2 = true /\ aclAllowed D r2 = true)
       /\ (BasicAuth r = None ->
           s = [Classifier; Credential]
           /\ codes (plugin.HandlerFunc rt r w) = codes w ++ [StatusUnauthorized]
           /\ storeCalls (plugin.HandlerFunc rt r w) = storeCalls w).
Proof.
  split; [reflexivity|]. intros rt Hrt.
  destruct (routes_table rt Hrt) as (admin & h & Heq & Hh & _ & Hadm & _).
  destruct (guarded_entered admin h r w Hh)
    as (s & Hs & Hpre & Hc & Hcr & Hop & Hacl & Hadmin).
  destruct (guarded_stages admin h r w Hh) as (s' & Hs' & _ & Hnone & _).
  assert (s' = s) as ->.
  { rewrite Hs in Hs'. apply app_inv_head in Hs'. congruence. }
  rewrite Heq. exists s.
  repeat (split; [assumption|]).
  split; [|exact Hnone].
  rewrite Hadmin, Hadm. reflexivity.
Qed.

(** C7.  The table serves fetch under GET, create under PUT, patch under
    PATCH and delete under DELETE.  A request that has passed the
    credential, Op and ACL checks is handed, on the fetch route, straight
    to [getPermission], and on the create, patch and delete routes to the
    Admin check in front of [putPermission], [patchPermission] and
    [deletePermission]: there a principal the check refuses is answered
    403 and the handler is not run.  The Admin check is entered on these
    three routes only, and only by such a request. *)
Theorem admin_check_on_mutating_routes (r : Request) (w : World) :
  map (fun rt => (plugin.Name rt, plugin.Methods rt, plugin.Path rt))
      (routes D L K g es)
  = [("Get Permission", [http.MethodGet], "/_permission/{username}");
     ("Create Permission", [http.MethodPut], "/_permission");
     ("Patch Permission", [http.MethodPatch], "/_permission/{username}");
     ("Delete Permission", [http.MethodDelete], "/_permission/{username}")]
  /\ forall rt, In rt (routes D L K g es) ->
     (exists s,
        stages (plugin.HandlerFunc rt r w) = stages w ++ s
        /\ (In AdminCheck s <->
            In (plugin.Name rt) mutatingRoutes /\ passesChecks D r = true)
        /\ (In AdminCheck s <->
            plugin.Methods rt <> [http.MethodGet] /\ passesChecks D r = true)
        /\ (plugin.Name rt = "Get Permission" -> ~ In AdminCheck s))
     /\ forall r2,
          admitted D r = Some r2 ->
          opAllowed D r2 = true ->
          aclAllowed D r2 = true ->
          let w4 := w ++ [Enter Classifier; Enter Credential;
                          Enter OpCheck; Enter ACLCheck] in
          (plugin.Methods rt = [http.MethodGet] ->
           plugin.HandlerFunc rt r w = getPermission L es r2 w4)
          /\ (plugin.Methods rt = [http.MethodPut] ->
              plugin.HandlerFunc rt r w = isAdmin D (putPermission L K g es) r2 w4)
          /\ (plugin.Methods rt = [http.MethodPatch] ->
              plugin.HandlerFunc rt r w = isAdmin D (patchPermission L K es) r2 w4)
          /\ (plugin.Methods rt = [http.MethodDelete] ->
              plugin.HandlerFunc rt r w = isAdmin D (deletePermission L es) r2 w4)
          /\ (plugin.Methods rt <> [http.MethodGet] ->
              adminAllowed D r2 = false ->
              plugin.HandlerFunc rt r w
              = util.WriteBackError "Forbidden" StatusForbidden
                  (w4 ++ [Enter AdminCheck])).
Proof.
  split; [reflexivity|]. intros rt Hrt. split.
  - destruct (routes_table rt Hrt) as (admin & h & Heq & Hh & Hname & Hmeth & _).
    rewrite Heq.
    destruct (guarded_stages admin h r w Hh) as (s & Hs & _ & _ & Hin).
    exists s. split; [exact Hs|].
    split; [rewrite Hin, Hname; reflexivity|].
    split; [rewrite Hin, Hmeth; reflexivity|].
    intros Hget Hs'. apply Hin in Hs' as [Ht _]. apply Hname in Ht.
    rewrite Hget in Ht. unfold mutatingRoutes in Ht. simpl in Ht.
    intuition discriminate.
  - intros r2 Had Hop Hacl w4.
    destruct (routes_table rt Hrt)
      as (admin & h & Heq & _ & _ & Hmeth & Hget & Hput & Hpatch & Hdel).
    rewrite Heq, guarded_run, Had, Hop, Hacl. fold w4.
    split; [|split; [|split; [|split]]].
    + intros Hm. rewrite (Hget Hm).
      destruct admin; [|reflexivity]. destruct Hmeth as [Hmeth _].
      exfalso. apply Hmeth; [reflexivity|exact Hm].
    + intros Hm. rewrite (Hput Hm).
      destruct admin; [reflexivity|]. destruct Hmeth as [_ Hmeth].
      rewrite Hm in Hmeth. discriminate Hmeth. discriminate.
    + intros Hm. rewrite (Hpatch Hm).
      destruct admin; [reflexivity|]. destruct Hmeth as [_ Hmeth].
      rewrite Hm in Hmeth. discriminate Hmeth. discriminate.
    + intros Hm. rewrite (Hdel Hm).
      destruct admin; [reflexivity|]. destruct Hmeth as [_ Hmeth].
      rewrite Hm in Hmeth. discriminate Hmeth. discriminate.
    + intros Hm Hno. apply Hmeth in Hm. subst admin.
      unfold isAdmin, emit. rewrite Hno. reflexivity.
Qed.


End RouteProperties.

(** ** Initialisation *)

Section InitProperties.
Variable L : Library.
Variable NewES : string -> string -> string -> string -> option elasticsearch * option error.
Variable IndexMapping : string.

(** C9.  [InitFunc] returns [EnvVarNotSetError] for the first of
    [ES_CLUSTER_URL], [PERMISSIONS_ES_INDEX], [PERMISSIONS_ES_TYPE], in
    that order, that reads as the empty string, leaving the plugin as it
    was and the dao unbuilt; when all three are set it builds the dao,
    once, from their values. *)
Theorem InitFunc_required_env (env : gmap string string) (p : Permissions) (w : World) :
  let started := log.Printf (logTag +:+ ": initializing plugin: " +:+ pluginName +:+ nl) w in
  match List.find (fun v => String.eqb (index env v) EmptyString) requiredEnv with
  | Some v =>
      InitFunc L NewES IndexMapping env p w = (p, Some (EnvVarNotSetError v), started)
  | None =>
      let url := index env envEsURL in
      let indexName := index env envPermissionEsIndex in
      let typeName := index env envPermissionEsType in
      let built := NewES url indexName typeName IndexMapping in
      exists result,
        InitFunc L NewES IndexMapping env p w
          = (mkPermissions (fst built), result,
             emit (EsNew url indexName typeName IndexMapping) started)
        /\ (result = None <-> snd built = None)
  end.
Proof.
  unfold InitFunc, requiredEnv. simpl.
  destruct (String.eqb (index env envEsURL) EmptyString); [reflexivity|].
  destruct (String.eqb (index env envPermissionEsIndex) EmptyString); [reflexivity|].
  destruct (String.eqb (index env envPermissionEsType) EmptyString); [reflexivity|].
  destruct (NewES _ _ _ _) as [dao [e|]]; simpl.
  - eexists. split; [reflexivity|]. intuition discriminate.
  - eexists. split; [reflexivity|]. intuition.
Qed.

End InitProperties.

(** * Further properties of the handlers *)

Lemma logLines_emit (e : Event) (w : World) :
  logLines (emit e w) = logLines w ++ (if isLog e then [e] else []).
Proof.
  unfold logLines, emit. rewrite List.filter_app. simpl.
  destruct (isLog e); reflexivity.
Qed.

(** As [observe], for the log lines of a trace. *)
Ltac observe_logs :=
  unfold util.WriteBackRaw, util.WriteBackError, util.WriteBackMessage,
         http.Error, log.Printf;
  repeat rewrite logLines_emit;
  simpl; rewrite ?app_nil_r, <- ?app_assoc; simpl.

(** Closes a goal [exists c, codes _ = codes w ++ [c] /\ In c _]. *)
Ltac answered :=
  eexists; split; [observe; reflexivity | simpl; auto 10].

Section Responses.
Variable L : Library.
Variable K : Constants.
Variable g : Generated.
Variable es : elasticsearch.

(** X1.  The create, patch and delete handlers answer every request with
    exactly one response; its code is one of 200, 400, 401, 500 for
    create, of 200, 400, 500 for patch, and of 200, 500 for delete. *)
Theorem mutating_handlers_answer_once (r : Request) (w : World) :
  (exists c, codes (putPermission L K g es r w) = codes w ++ [c]
             /\ In c [StatusOK; StatusBadRequest; StatusUnauthorized;
                      StatusInternalServerError])
  /\ (exists c, codes (patchPermission L K es r w) = codes w ++ [c]
                /\ In c [StatusOK; StatusBadRequest; StatusInternalServerError])
  /\ (exists c, codes (deletePermission L es r w) = codes w ++ [c]
                /\ In c [StatusOK; StatusInternalServerError]).
Proof.
  split; [|split].
  - unfold putPermission.
    destruct (BasicAuth r) as [[userId pw]|]; [|answered].
    destruct (Body r) as [e|body]; [answered|].
    destruct (Unmarshal L body) as [e|obj]; [answered|].
    destruct (New K g userId (putOptions obj)) as [e|p]; [answered|].
    destruct (Marshal L p) as [e|raw]; [answered|].
    destruct (putPermission_es es p) as [[|] [e|]]; answered.
  - unfold patchPermission.
    destruct (Body r) as [e|body]; [answered|].
    destruct (Unmarshal L body) as [e|obj]; [answered|].
    destruct (GetPatch K obj) as [e|patch]; [answered|].
    destruct (patchPermission_es es (index (Vars r) "username") patch) as [[|] [e|]];
      answered.
  - unfold deletePermission.
    destruct (deletePermission_es es (index (Vars r) "username")) as [[|] [e|]];
      answered.
Qed.

(** X2.  [getPermission] writes one response or two, with codes among
    200, 404, 500; it writes two exactly when the request context bears a
    permission that marshals, and then the first one is 200. *)
Theorem getPermission_responses (r : Request) (w : World) :
  exists cs,
    codes (getPermission L es r w) = codes w ++ cs
    /\ In cs [[StatusOK]; [StatusNotFound]; [StatusInternalServerError];
              [StatusOK; StatusOK]; [StatusOK; StatusNotFound]]
    /\ (length cs = 2%nat <->
        exists p raw, ctxPermission (Ctx r) = Some p /\ Marshal L p = inr raw).
Proof.
  unfold getPermission.
  destruct (ctxPermission (Ctx r)) as [p|].
  - destruct (Marshal L p) as [e|raw] eqn:Hm.
    + exists [StatusInternalServerError].
      split; [observe; reflexivity|]. split; [simpl; auto 10|].
      split; [discriminate|]. intros (p' & raw & Hp & Hr).
      inversion Hp; subst p'. congruence.
    + destruct (getRawPermission es (index (Vars r) "username")) as [e|stored];
        [exists [StatusOK; StatusNotFound] | exists [StatusOK; StatusOK]];
        (split; [observe; reflexivity|]; split; [simpl; auto 10|];
         split; [intros _; exists p, raw; auto | reflexivity]).
  - destruct (getRawPermission es (index (Vars r) "username")) as [e|stored];
      [exists [StatusNotFound] | exists [StatusOK]];
      (split; [observe; reflexivity|]; split; [simpl; auto 10|];
       split; [discriminate | intros (p & raw & Hp & _); discriminate]).
Qed.


(** X4.  The patch and delete handlers answer 200 exactly when the dao
    was asked and reported success ([ok] true and no error); a patch
    request gets that far only with a body that reads, decodes and yields
    a patch. *)
Theorem patch_delete_ok_iff (r : Request) (w : World) :
  let username := index (Vars r) "username" in
  (codes (deletePermission L es r w) = codes w ++ [StatusOK]
   <-> deletePermission_es es username = (true, None))
  /\ (codes (patchPermission L K es r w) = codes w ++ [StatusOK]
      <-> exists body obj patch,
            Body r = inr body
            /\ Unmarshal L body = inr obj
            /\ GetPatch K obj = inr patch
            /\ patchPermission_es es username patch = (true, None)).
Proof.
  intros username. split.
  - unfold deletePermission. fold username.
    destruct (deletePermission_es es username) as [[|] [e|]]; observe;
      (split; [intros H; try reflexivity; apply app_inv_head in H; discriminate
              |intros H; try reflexivity; discriminate]).
  - split.
    + unfold patchPermission. fold username.
      destruct (Body r) as [e|body];
        [observe; intros H; apply app_inv_head in H; discriminate|].
      destruct (Unmarshal L body) as [e|obj] eqn:Hu;
        [observe; intros H; apply app_inv_head in H; discriminate|].
      destruct (GetPatch K obj) as [e|patch] eqn:Hp;
        [observe; intros H; apply app_inv_head in H; discriminate|].
      destruct (patchPermission_es es username patch) as [[|] [e|]] eqn:Hs;
        try (observe; intros H; apply app_inv_head in H; discriminate).
      intros _. exists body, obj, patch. auto.
    + intros (body & obj & patch & Hb & Hu & Hp & Hs).
      unfold patchPermission. fold username. rewrite Hb, Hu, Hp, Hs.
      observe. reflexivity.
Qed.

End Responses.

Section StoreUse.
Variable L : Library.
Variable K : Constants.
Variable g : Generated.
Variable es : elasticsearch.

(** X5.  A handler calls the dao at most once for a request, and only
    with its own operation: the fetch handler looks the route's username
    up, unless the context permission fails to marshal; the create
    handler stores the permission it constructed; the patch handler sends
    the patch built from the body under the route's username; the delete
    handler always deletes the route's username. *)
Theorem handlers_call_dao_at_most_once (r : Request) (w : World) :
  let username := index (Vars r) "username" in
  (storeCalls (getPermission L es r w) = storeCalls w ++ [EsGetRaw username]
   \/ (storeCalls (getPermission L es r w) = storeCalls w
       /\ exists p e, ctxPermission (Ctx r) = Some p /\ Marshal L p = inl e))
  /\ (storeCalls (putPermission L K g es r w) = storeCalls w
      \/ exists userId pw body obj p,
           BasicAuth r = Some (userId, pw) /\ Body r = inr body
           /\ Unmarshal L body = inr obj
           /\ New K g userId (putOptions obj) = inr p
           /\ storeCalls (putPermission L K g es r w) = storeCalls w ++ [EsPut p])
  /\ (storeCalls (patchPermission L K es r w) = storeCalls w
      \/ exists body obj patch,
           Body r = inr body /\ Unmarshal L body = inr obj
           /\ GetPatch K obj = inr patch
           /\ storeCalls (patchPermission L K es r w)
              = storeCalls w ++ [EsPatch username patch])
  /\ storeCalls (deletePermission L es r w) = storeCalls w ++ [EsDelete username].
Proof.
  intros username. repeat apply conj.
  - unfold getPermission. fold username.
    destruct (ctxPermission (Ctx r)) as [p|].
    + destruct (Marshal L p) as [e|raw] eqn:Hm.
      * right. split; [observe; reflexivity|]. exists p, e. auto.
      * left. destruct (getRawPermission es username); observe; reflexivity.
    + left. destruct (getRawPermission es username); observe; reflexivity.
  - unfold putPermission.
    destruct (BasicAuth r) as [[userId pw]|]; [|left; observe; reflexivity].
    destruct (Body r) as [e|body]; [left; observe; reflexivity|].
    destruct (Unmarshal L body) as [e|obj] eqn:Hu; [left; observe; reflexivity|].
    destruct (New K g userId (putOptions obj)) as [e|p] eqn:Hn;
      [left; observe; reflexivity|].
    destruct (Marshal L p) as [e|raw]; [left; observe; reflexivity|].
    right. exists userId, pw, body, obj, p.
    repeat (split; [reflexivity || assumption|]).
    destruct (putPermission_es es p) as [[|] [e|]]; observe; reflexivity.
  - unfold patchPermission. fold username.
    destruct (Body r) as [e|body]; [left; observe; reflexivity|].
    destruct (Unmarshal L body) as [e|obj] eqn:Hu; [left; observe; reflexivity|].
    destruct (GetPatch K obj) as [e|patch] eqn:Hp; [left; observe; reflexivity|].
    right. exists body, obj, patch.
    repeat (split; [reflexivity || assumption|]).
    destruct (patchPermission_es es username patch) as [[|] [e|]]; observe; reflexivity.
  - unfold deletePermission. fold username.
    destruct (deletePermission_es es username) as [[|] [e|]]; observe; reflexivity.
Qed.

(** X6.  A body that cannot be read, or that does not decode, makes the
    create handler (given a credential pair) and the patch handler answer
    400 without calling the dao. *)
Theorem bad_body_is_400 (r : Request) (w : World) :
  (exists e, Body r = inl e)
  \/ (exists body e, Body r = inr body /\ Unmarshal L body = inl e) ->
  (codes (patchPermission L K es r w) = codes w ++ [StatusBadRequest]
   /\ storeCalls (patchPermission L K es r w) = storeCalls w)
  /\ (BasicAuth r <> None ->
      codes (putPermission L K g es r w) = codes w ++ [StatusBadRequest]
      /\ storeCalls (putPermission L K g es r w) = storeCalls w).
Proof.
  intros Hbad. split.
  - unfold patchPermission.
    destruct Hbad as [[e Hb]|(body & e & Hb & Hu)]; rewrite Hb; [|rewrite Hu];
      split; observe; reflexivity.
  - intros Hauth. unfold putPermission.
    destruct (BasicAuth r) as [[userId pw]|]; [|congruence].
    destruct Hbad as [[e Hb]|(body & e & Hb & Hu)]; rewrite Hb; [|rewrite Hu];
      split; observe; reflexivity.
Qed.

(** X7.  When the route gives no [username] variable, the fetch, patch
    and delete handlers go on with the empty username: the delete
    handler asks the dao to delete it, the fetch handler (without a
    context permission) to look it up. *)
Theorem missing_username_reads_empty (r : Request) (w : World) :
  Vars r !! "username" = None ->
  storeCalls (deletePermission L es r w) = storeCalls w ++ [EsDelete EmptyString]
  /\ (ctxPermission (Ctx r) = None ->
      storeCalls (getPermission L es r w) = storeCalls w ++ [EsGetRaw EmptyString])
  /\ (forall body obj patch,
        Body r = inr body -> Unmarshal L body = inr obj -> GetPatch K obj = inr patch ->
        storeCalls (patchPermission L K es r w)
          = storeCalls w ++ [EsPatch EmptyString patch]).
Proof.
  intros Hvar.
  assert (Hname : index (Vars r) "username" = EmptyString).
  { unfold index. rewrite Hvar. reflexivity. }
  split; [|split].
  - unfold deletePermission. rewrite Hname.
    destruct (deletePermission_es es EmptyString) as [[|] [e|]]; observe; reflexivity.
  - intros Hctx. unfold getPermission. rewrite Hname, Hctx.
    destruct (getRawPermission es EmptyString); observe; reflexivity.
  - intros body obj patch Hb Hu Hp. unfold patchPermission.
    rewrite Hname, Hb, Hu, Hp.
    destruct (patchPermission_es es EmptyString patch) as [[|] [e|]];
      observe; reflexivity.
Qed.

(** X8.  What each handler reads of a request.  The delete handler reads
    the route's username only; the fetch handler the username and the
    context permission; the patch handler the username and the body; the
    create handler the body and the identifier of the credential pair,
    never the password.  Two requests that agree on these are served
    alike. *)
Theorem handlers_read_only (r r' : Request) (w : World) :
  (index (Vars r) "username" = index (Vars r') "username" ->
   deletePermission L es r w = deletePermission L es r' w)
  /\ (index (Vars r) "username" = index (Vars r') "username" ->
      ctxPermission (Ctx r) = ctxPermission (Ctx r') ->
      getPermission L es r w = getPermission L es r' w)
  /\ (index (Vars r) "username" = index (Vars r') "username" ->
      Body r = Body r' ->
      patchPermission L K es r w = patchPermission L K es r' w)
  /\ (fst <$> BasicAuth r = fst <$> BasicAuth r' ->
      Body r = Body r' ->
      putPermission L K g es r w = putPermission L K g es r' w).
Proof.
  repeat apply conj.
  - intros Hu. unfold deletePermission. rewrite Hu. reflexivity.
  - intros Hu Hc. unfold getPermission. rewrite Hu, Hc. reflexivity.
  - intros Hu Hb. unfold patchPermission. rewrite Hu, Hb. reflexivity.
  - intros Ha Hb. unfold putPermission. rewrite Hb.
    destruct (BasicAuth r) as [[u pw]|], (BasicAuth r') as [[u' pw']|];
      simpl in Ha; try discriminate; [|reflexivity].
    inversion Ha; subst u'. reflexivity.
Qed.

(** X9.  A permission that does not marshal is answered with 500 and
    keeps the dao out: the fetch handler does not look the username up
    when the context permission fails to marshal, and the create handler
    does not store a permission it could not marshal, answering with the
    fixed message instead of the error's text. *)
Theorem marshal_failure_is_500 (r : Request) (w : World) :
  (forall p e,
     ctxPermission (Ctx r) = Some p -> Marshal L p = inl e ->
     codes (getPermission L es r w) = codes w ++ [StatusInternalServerError]
     /\ storeCalls (getPermission L es r w) = storeCalls w)
  /\ (forall userId pw body obj p e,
        BasicAuth r = Some (userId, pw) -> Body r = inr body ->
        Unmarshal L body = inr obj ->
        New K g userId (putOptions obj) = inr p -> Marshal L p = inl e ->
        storeCalls (putPermission L K g es r w) = storeCalls w
        /\ In (Respond Message "Unable to create permission" StatusInternalServerError)
              (putPermission L K g es r w)
        /\ codes (putPermission L K g es r w) = codes w ++ [StatusInternalServerError]).
Proof.
  split.
  - intros p e Hc Hm. unfold getPermission. rewrite Hc, Hm.
    split; observe; reflexivity.
  - intros userId pw body obj p e Ha Hb Hu Hn Hm.
    unfold putPermission. rewrite Ha, Hb, Hu, Hn, Hm.
    split; [observe; reflexivity|]. split; [|observe; reflexivity].
    unfold util.WriteBackMessage, emit. apply in_or_app. right. left. reflexivity.
Qed.

(** X10.  Logging of a failing dao.  The patch and delete handlers write
    one log line when the dao does not report success and none when it
    does; the create handler writes no log line once the permission is
    marshalled, whatever the dao answers. *)
Theorem store_failure_logging (r : Request) (w : World) :
  let username := index (Vars r) "username" in
  length (logLines (deletePermission L es r w))
    = (length (logLines w)
       + if Z.eqb (codeOfStoreAnswer (deletePermission_es es username)) StatusOK
         then 0 else 1)%nat
  /\ (forall body obj patch,
        Body r = inr body -> Unmarshal L body = inr obj -> GetPatch K obj = inr patch ->
        length (logLines (patchPermission L K es r w))
          = (length (logLines w)
             + if Z.eqb (codeOfStoreAnswer (patchPermission_es es username patch)) StatusOK
               then 0 else 1)%nat)
  /\ (forall userId pw body obj p raw,
        BasicAuth r = Some (userId, pw) -> Body r = inr body ->
        Unmarshal L body = inr obj ->
        New K g userId (putOptions obj) = inr p -> Marshal L p = inr raw ->
        logLines (putPermission L K g es r w) = logLines w).
Proof.
  intros username. split; [|split].
  - unfold deletePermission. fold username.
    destruct (deletePermission_es es username) as [[|] [e|]]; observe_logs;
      rewrite ?length_app; simpl; lia.
  - intros body obj patch Hb Hu Hp. unfold patchPermission. fold username.
    rewrite Hb, Hu, Hp.
    destruct (patchPermission_es es username patch) as [[|] [e|]]; observe_logs;
      rewrite ?length_app; simpl; lia.
  - intros userId pw body obj p raw Ha Hb Hu Hn Hm.
    unfold putPermission. rewrite Ha, Hb, Hu, Hn, Hm.
    destruct (putPermission_es es p) as [[|] [e|]]; observe_logs; reflexivity.
Qed.

(** X13.  The create handler forwards a [SetUserId] option exactly for a
    non-empty [user_id]: an empty one is taken as absent.  It passes no
    option at all exactly when the body gives none of the four fields. *)
Theorem putOptions_user_id (obj : Permission) :
  (forall u, In (SetUserId u) (putOptions obj)
             <-> UserId obj = u /\ u <> EmptyString)
  /\ (putOptions obj = []
      <-> UserId obj = EmptyString /\ Ops obj = None
          /\ ACLs obj = None /\ Limits obj = None).
Proof.
  split.
  - intros u. unfold putOptions.
    destruct (String.eqb_spec (UserId obj) EmptyString) as [He|Hne];
      destruct (Ops obj), (ACLs obj), (Limits obj); simpl;
      intuition congruence.
  - unfold putOptions.
    destruct (String.eqb_spec (UserId obj) EmptyString) as [He|Hne];
      destruct (Ops obj), (ACLs obj), (Limits obj); simpl;
      intuition congruence.
Qed.

End StoreUse.

(** * Further properties of initialisation *)

Section InitEnvironment.
Variable L : Library.
Variable NewES : string -> string -> string -> string -> option elasticsearch * option error.
Variable IndexMapping : string.

(** X11.  [InitFunc] returns no error exactly when the three variables
    all read as non-empty and [NewES], called on their values, returns
    none. *)
Theorem InitFunc_succeeds_iff (env : gmap string string) (p : Permissions) (w : World) :
  snd (fst (InitFunc L NewES IndexMapping env p w)) = None
  <-> index env envEsURL <> EmptyString
      /\ index env envPermissionEsIndex <> EmptyString
      /\ index env envPermissionEsType <> EmptyString
      /\ snd (NewES (index env envEsURL) (index env envPermissionEsIndex)
                    (index env envPermissionEsType) IndexMapping) = None.
Proof.
  unfold InitFunc.
  destruct (String.eqb_spec (index env envEsURL) EmptyString) as [H1|H1];
    [simpl; intuition discriminate|].
  destruct (String.eqb_spec (index env envPermissionEsIndex) EmptyString) as [H2|H2];
    [simpl; intuition discriminate|].
  destruct (String.eqb_spec (index env envPermissionEsType) EmptyString) as [H3|H3];
    [simpl; intuition discriminate|].
  destruct (NewES _ _ _ _) as [dao [e|]]; simpl; intuition discriminate.
Qed.

(** X12.  [InitFunc] reads the three variables and nothing else of the
    environment: two environments that agree on them give the same
    plugin, the same error and the same trace.  A variable set to the
    empty string counts as one that is not set. *)
Theorem InitFunc_reads_three_variables (env env' : gmap string string)
    (p : Permissions) (w : World) :
  (forall v, In v requiredEnv ->
             default EmptyString (env !! v) = default EmptyString (env' !! v)) ->
  InitFunc L NewES IndexMapping env p w = InitFunc L NewES IndexMapping env' p w.
Proof.
  intros Hagree. unfold InitFunc, index.
  rewrite (Hagree envEsURL), (Hagree envPermissionEsIndex),
          (Hagree envPermissionEsType) by (unfold requiredEnv; simpl; auto).
  reflexivity.
Qed.

End InitEnvironment.

(** * The properties on concrete requests *)

Import Demo.

(** C1 (counterexample).  alice creates a permission with a body naming
    mallory as [user_id]: the permission stored belongs to mallory, not
    to the authenticated caller. *)
Lemma putPermission_body_user_id_overrides :
  let r := request alice EmptyString bodyUserId in
  BasicAuth r = Some ("alice", "secret")
  /\ storeCalls (putPermission L K g esEmpty r []) = [EsPut mallorysPermission]
  /\ UserId mallorysPermission <> "alice".
Proof.
  split; [reflexivity|]. split; [vm_compute; reflexivity|]. discriminate.
Qed.

Lemma putPermission_stored_UserId_witness :
  let r := request alice EmptyString bodyUserId in
  In (EsPut mallorysPermission) (storeCalls (putPermission L K g esEmpty r []))
  /\ New K g "alice" (putOptions (mkPermission "mallory" EmptyString EmptyString 0
                                              None None None))
     = inr mallorysPermission
  /\ UserId mallorysPermission = "mallory".
Proof.
  assert (Hin : In (EsPut mallorysPermission)
                   (storeCalls (putPermission L K g esEmpty
                                  (request alice EmptyString bodyUserId) []))).
  { vm_compute. left. reflexivity. }
  split; [exact Hin|].
  destruct (putPermission_stored_UserId L K g esEmpty
              (request alice EmptyString bodyUserId) []
              "alice" "secret" bodyUserId
              (mkPermission "mallory" EmptyString EmptyString 0 None None None)
              mallorysPermission eq_refl eq_refl eq_refl Hin) as [[]|H].
  exact H.
Defined.

Lemma putPermission_unknown_category_is_500_witness :
  let r := request alice EmptyString bodyBogusOp in
  hasUnknownCategory K (mkPermission EmptyString EmptyString EmptyString 0
                                     (Some ["bogus"]) None None) = true
  /\ codes (putPermission L K g esEmpty r []) = [StatusInternalServerError]
  /\ storeCalls (putPermission L K g esEmpty r []) = [].
Proof.
  split; [reflexivity|].
  exact (putPermission_unknown_category_is_500 L K g esEmpty
           (request alice EmptyString bodyBogusOp) []
           "alice" "secret" bodyBogusOp
           (mkPermission EmptyString EmptyString EmptyString 0 (Some ["bogus"]) None None)
           eq_refl eq_refl eq_refl eq_refl).
Defined.

(** The same body sent as a patch is answered with 400. *)
Example patchPermission_bogus_op :
  codes (patchPermission L K esBob (request alice "bob" bodyBogusOp) []) = [StatusBadRequest].
Proof. vm_compute. reflexivity. Qed.

Lemma getPermission_context_still_fetches_witness :
  ctxPermission (Ctx fetchWithContext) = Some bobsPermission
  /\ storeCalls (getPermission L esBob fetchWithContext []) = [EsGetRaw "bob"]
  /\ exists second, codes (getPermission L esBob fetchWithContext []) = [StatusOK; second].
Proof.
  split; [reflexivity|].
  exact (getPermission_context_still_fetches L esBob fetchWithContext []
           bobsPermission _ eq_refl eq_refl).
Defined.

Lemma getPermission_any_store_error_is_404_witness :
  let r := request alice "bob" bodyEmpty in
  getRawPermission esDown "bob" = inl (Foreign "connection refused")
  /\ codes (getPermission L esDown r []) = [StatusNotFound]
  /\ storeCalls (getPermission L esDown r []) = [EsGetRaw "bob"].
Proof.
  split; [reflexivity|].
  exact (getPermission_any_store_error_is_404 L esDown (request alice "bob" bodyEmpty) []
           (Foreign "connection refused") eq_refl eq_refl).
Defined.

(** C5 (counterexample).  Deleting, or patching, a username the store
    does not hold is answered with 500, not with 404. *)
Lemma delete_absent_username_is_not_404 :
  let r := request alice "doesnotexist" bodyScenario in
  deletePermission_es esEmpty "doesnotexist" = (false, Some (NotFoundError "doesnotexist"))
  /\ status (deletePermission L esEmpty r []) = Some StatusInternalServerError
  /\ status (patchPermission L K esEmpty r []) = Some StatusInternalServerError
  /\ status (deletePermission L esEmpty r []) <> Some StatusNotFound.
Proof.
  split; [reflexivity|]. split; [vm_compute; reflexivity|].
  split; [vm_compute; reflexivity|]. vm_compute. discriminate.
Qed.

Lemma patch_delete_store_failure_is_500_witness :
  let r := request alice "doesnotexist" bodyScenario in
  codes (deletePermission L esEmpty r []) = [StatusInternalServerError]
  /\ codes (patchPermission L K esEmpty r []) = [StatusInternalServerError].
Proof.
  destruct (patch_delete_store_failure_is_500 L K esEmpty
              (request alice "doesnotexist" bodyScenario) []) as [[Hd _] Hp].
  split; [exact Hd|].
  destruct (Hp bodyScenario
              (mkPermission EmptyString EmptyString EmptyString 0
                            (Some ["read"]) (Some ["search"]) None)
              [PatchOps ["read"]; PatchACLs ["search"]]
              eq_refl eq_refl eq_refl) as [Hc _].
  exact Hc.
Defined.

Lemma routes_guard_order_witness :
  let anonymous := request None "bob" bodyEmpty in
  let admin := request alice "bob" bodyEmpty in
  let plain := request carol "bob" bodyEmpty in
  In deleteRoute (routes D L K g esBob)
  /\ BasicAuth anonymous = None
  /\ stages (plugin.HandlerFunc deleteRoute anonymous []) = [Classifier; Credential]
  /\ codes (plugin.HandlerFunc deleteRoute anonymous []) = [StatusUnauthorized]
  /\ storeCalls (plugin.HandlerFunc deleteRoute anonymous []) = []
  /\ (exists s,
        stages (plugin.HandlerFunc deleteRoute admin []) = s
        /\ In OpCheck s /\ In ACLCheck s /\ In AdminCheck s)
  /\ (exists s,
        stages (plugin.HandlerFunc getRoute plain []) = s
        /\ In OpCheck s /\ In ACLCheck s /\ ~ In AdminCheck s).
Proof.
  assert (Hdel : In deleteRoute (routes D L K g esBob)).
  { right. right. right. left. reflexivity. }
  assert (Hget : In getRoute (routes D L K g esBob)).
  { left. reflexivity. }
  split; [exact Hdel|]. split; [reflexivity|].
  destruct (routes_guard_order D L K g esBob (request None "bob" bodyEmpty) [])
    as [_ Hanon].
  destruct (Hanon deleteRoute Hdel) as (s & Hs & _ & _ & _ & _ & _ & _ & Hnone).
  destruct (Hnone eq_refl) as (-> & Hc & Hst).
  split; [exact Hs|]. split; [exact Hc|]. split; [exact Hst|].
  split.
  - destruct (routes_guard_order D L K g esBob (request alice "bob" bodyEmpty) [])
      as [_ Hadmin].
    destruct (Hadmin deleteRoute Hdel) as (s & Hs' & _ & _ & _ & Hop & Hacl & Hadm & _).
    exists s. split; [exact Hs'|].
    split; [apply Hop; exists (admittedAs (request alice "bob" bodyEmpty) "alice");
            reflexivity|].
    split; [apply Hacl; exists (admittedAs (request alice "bob" bodyEmpty) "alice");
            split; reflexivity|].
    apply Hadm. split; [discriminate|].
    exists (admittedAs (request alice "bob" bodyEmpty) "alice").
    repeat split; reflexivity.
  - destruct (routes_guard_order D L K g esBob (request carol "bob" bodyEmpty) [])
      as [_ Hplain].
    destruct (Hplain getRoute Hget) as (s & Hs' & _ & _ & _ & Hop & Hacl & Hadm & _).
    exists s. split; [exact Hs'|].
    split; [apply Hop; exists (admittedAs (request carol "bob" bodyEmpty) "carol");
            reflexivity|].
    split; [apply Hacl; exists (admittedAs (request carol "bob" bodyEmpty) "carol");
            split; reflexivity|].
    intros Hin. apply Hadm in Hin as [Hmeth _]. apply Hmeth. reflexivity.
Defined.

Lemma admin_check_on_mutating_routes_witness :
  let plain := request carol "bob" bodyScenario in
  let refused := [Enter Classifier; Enter Credential; Enter OpCheck; Enter ACLCheck;
                  Enter AdminCheck; Respond Err "Forbidden" StatusForbidden] in
  admitted D plain = Some (admittedAs plain "carol")
  /\ adminAllowed D (admittedAs plain "carol") = false
  /\ plugin.HandlerFunc createRoute plain [] = refused
  /\ plugin.HandlerFunc patchRoute plain [] = refused
  /\ plugin.HandlerFunc deleteRoute plain [] = refused
  /\ plugin.HandlerFunc getRoute plain []
     = getPermission L esBob (admittedAs plain "carol")
         [Enter Classifier; Enter Credential; Enter OpCheck; Enter ACLCheck]
  /\ plugin.HandlerFunc createRoute (request alice "bob" bodyScenario) []
     = isAdmin D (putPermission L K g esBob)
         (admittedAs (request alice "bob" bodyScenario) "alice")
         [Enter Classifier; Enter Credential; Enter OpCheck; Enter ACLCheck].
Proof.
  split; [reflexivity|]. split; [reflexivity|].
  destruct (admin_check_on_mutating_routes D L K g esBob
              (request carol "bob" bodyScenario) []) as [_ Hplain].
  destruct (admin_check_on_mutating_routes D L K g esBob
              (request alice "bob" bodyScenario) []) as [_ Hadmin].
  split; [|split; [|split; [|split]]].
  - destruct (Hplain createRoute) as [_ Hrun]; [right; left; reflexivity|].
    destruct (Hrun (admittedAs (request carol "bob" bodyScenario) "carol")
                eq_refl eq_refl eq_refl) as (_ & _ & _ & _ & Hno).
    apply Hno; [discriminate|reflexivity].
  - destruct (Hplain patchRoute) as [_ Hrun]; [right; right; left; reflexivity|].
    destruct (Hrun (admittedAs (request carol "bob" bodyScenario) "carol")
                eq_refl eq_refl eq_refl) as (_ & _ & _ & _ & Hno).
    apply Hno; [discriminate|reflexivity].
  - destruct (Hplain deleteRoute) as [_ Hrun]; [right; right; right; left; reflexivity|].
    destruct (Hrun (admittedAs (request carol "bob" bodyScenario) "carol")
                eq_refl eq_refl eq_refl) as (_ & _ & _ & _ & Hno).
    apply Hno; [discriminate|reflexivity].
  - destruct (Hplain getRoute) as [_ Hrun]; [left; reflexivity|].
    destruct (Hrun (admittedAs (request carol "bob" bodyScenario) "carol")
                eq_refl eq_refl eq_refl) as (Hget & _).
    apply Hget. reflexivity.
  - destruct (Hadmin createRoute) as [_ Hrun]; [right; left; reflexivity|].
    destruct (Hrun (admittedAs (request alice "bob" bodyScenario) "alice")
                eq_refl eq_refl eq_refl) as (_ & Hput & _).
    apply Hput. reflexivity.
Defined.


(** On the fetch route the same principal, no administrator, is served. *)
Example fetch_route_skips_admin_check :
  let r := request carol "bob" bodyEmpty in
  adminAllowed D (WithContext r (mkContext None [("user", "carol")])) = false
  /\ stages (plugin.HandlerFunc getRoute r []) = [Classifier; Credential; OpCheck; ACLCheck]
  /\ status (plugin.HandlerFunc getRoute r []) = Some StatusOK
  /\ status (plugin.HandlerFunc deleteRoute r []) = Some StatusForbidden.
Proof. vm_compute. repeat split; reflexivity. Qed.

Lemma putPermission_requires_credentials_witness :
  let r := request None EmptyString bodyScenario in
  BasicAuth r = None
  /\ putPermission L K g esEmpty r []
     = [Respond Err "credentials not provided" StatusUnauthorized]
  /\ bodyReads (putPermission L K g esEmpty r []) = [].
Proof.
  split; [reflexivity|].
  destruct (putPermission_requires_credentials L K g esEmpty
              (request None EmptyString bodyScenario) [] eq_refl) as (Hw & _ & Hb & _).
  split; [exact Hw|exact Hb].
Defined.

(** [InitFunc] on concrete environments. *)
Example InitFunc_all_set :
  InitFunc L newES "{}" env (mkPermissions None) []
  = (mkPermissions (Some esEmpty), None,
     [Printf ("[permissions]: initializing plugin: permissions" +:+ nl);
      EsNew "http://localhost:9200" ".permissions" "_doc" "{}"]).
Proof. vm_compute. reflexivity. Qed.

Example InitFunc_index_unset :
  InitFunc L newES "{}" (delete envPermissionEsIndex (delete envPermissionEsType env))
           (mkPermissions None) []
  = (mkPermissions None, Some (EnvVarNotSetError "PERMISSIONS_ES_INDEX"),
     [Printf ("[permissions]: initializing plugin: permissions" +:+ nl)]).
Proof. vm_compute. reflexivity. Qed.

Lemma putOptions_absent_or_verbatim_witness :
  In (SetOps []) (putOptions (mkPermission EmptyString EmptyString EmptyString 0
                                           (Some []) None None))
  /\ ~ In (SetOps []) (putOptions draft).
Proof.
  split.
  - apply (putOptions_absent_or_verbatim
             (mkPermission EmptyString EmptyString EmptyString 0 (Some []) None None)).
    reflexivity.
  - destruct (putOptions_absent_or_verbatim draft) as (_ & _ & _ & _ & Hnone).
    apply Hnone. reflexivity.
Defined.

(** The create scenario of the spec: alice, with ops and acls given, is
    answered 200 and the permission stored has the generated credential
    pair and the categories of the body. *)
Example create_scenario :
  putPermission L K g esEmpty (request alice EmptyString bodyScenario) []
  = [ReadBody;
     EsPut (mkPermission "alice" "u-7f3a" "p-91c2" 1540000000
                         (Some ["read"]) (Some ["search"]) (Some [("ttl_sec", 3600)]));
     Respond Raw ("{" +:+ quoted "user_id" +:+ ":" +:+ quoted "alice" +:+ ","
                      +:+ quoted "username" +:+ ":" +:+ quoted "u-7f3a" +:+ "}")
             StatusOK].
Proof. vm_compute. reflexivity. Qed.

(** An explicitly empty list of ops is stored as such; an absent one is
    replaced by the default. *)
Example create_with_empty_ops :
  storeCalls (putPermission L K g esEmpty (request alice EmptyString bodyNoOps) [])
  = [EsPut (mkPermission "alice" "u-7f3a" "p-91c2" 1540000000
                         (Some []) (Some ["search"]) (Some [("ttl_sec", 3600)]))]
  /\ storeCalls (putPermission L K g esEmpty (request alice EmptyString bodyEmpty) [])
     = [EsPut (mkPermission "alice" "u-7f3a" "p-91c2" 1540000000
                            (Some ["read"]) (Some ["search"]) (Some [("ttl_sec", 3600)]))].
Proof. split; vm_compute; reflexivity. Qed.

(** * The further properties on concrete requests *)


Lemma patch_delete_ok_iff_witness :
  let r := request alice "bob" bodyScenario in
  deletePermission_es esBob "bob" = (true, None)
  /\ codes (deletePermission L esBob r []) = [StatusOK]
  /\ codes (patchPermission L K esBob r []) = [StatusOK].
Proof.
  split; [reflexivity|].
  destruct (patch_delete_ok_iff L K esBob (request alice "bob" bodyScenario) [])
    as [Hd Hp].
  split.
  - apply Hd. reflexivity.
  - apply Hp.
    exists bodyScenario,
           (mkPermission EmptyString EmptyString EmptyString 0
                         (Some ["read"]) (Some ["search"]) None),
           [PatchOps ["read"]; PatchACLs ["search"]].
    repeat split; reflexivity.
Defined.

Lemma bad_body_is_400_witness :
  let r := request alice "bob" "not json" in
  Unmarshal L "not json" = inl (Foreign "invalid character")
  /\ codes (patchPermission L K esBob r []) = [StatusBadRequest]
  /\ codes (putPermission L K g esBob r []) = [StatusBadRequest]
  /\ storeCalls (putPermission L K g esBob r []) = [].
Proof.
  split; [reflexivity|].
  destruct (bad_body_is_400 L K g esBob (request alice "bob" "not json") [])
    as [[Hp _] Hput].
  { right. exists "not json", (Foreign "invalid character").
    split; reflexivity. }
  split; [exact Hp|]. apply Hput. discriminate.
Defined.

Lemma missing_username_reads_empty_witness :
  let r := request alice EmptyString bodyEmpty in
  Vars r !! "username" = None
  /\ storeCalls (deletePermission L esBob r []) = [EsDelete EmptyString]
  /\ storeCalls (getPermission L esBob r []) = [EsGetRaw EmptyString].
Proof.
  assert (Hvar : Vars (request alice EmptyString bodyEmpty) !! "username" = None).
  { reflexivity. }
  split; [exact Hvar|].
  destruct (missing_username_reads_empty L K esBob
              (request alice EmptyString bodyEmpty) [] Hvar) as (Hd & Hg & _).
  split; [exact Hd|]. apply Hg. reflexivity.
Defined.

Lemma handlers_read_only_witness :
  putPermission L K g esEmpty (request (Some ("alice", "secret")) EmptyString bodyScenario) []
  = putPermission L K g esEmpty (request (Some ("alice", "hunter2")) EmptyString bodyScenario) [].
Proof.
  destruct (handlers_read_only L K g esEmpty
              (request (Some ("alice", "secret")) EmptyString bodyScenario)
              (request (Some ("alice", "hunter2")) EmptyString bodyScenario) [])
    as (_ & _ & _ & Hput).
  apply Hput; reflexivity.
Defined.

Lemma marshal_failure_is_500_witness :
  Marshal LnoMarshal bobsPermission = inl (Foreign "unsupported value")
  /\ codes (getPermission LnoMarshal esBob fetchWithContext []) = [StatusInternalServerError]
  /\ storeCalls (getPermission LnoMarshal esBob fetchWithContext []) = [].
Proof.
  split; [reflexivity|].
  destruct (marshal_failure_is_500 LnoMarshal K g esBob fetchWithContext [])
    as [Hget _].
  exact (Hget bobsPermission (Foreign "unsupported value") eq_refl eq_refl).
Defined.

Lemma store_failure_logging_witness :
  let r := request alice "doesnotexist" bodyScenario in
  length (logLines (deletePermission L esDown r [])) = 1%nat
  /\ logLines (putPermission L K g esDown r []) = [].
Proof.
  destruct (store_failure_logging L K g esDown
              (request alice "doesnotexist" bodyScenario) []) as (Hd & _ & Hput).
  split; [exact Hd|].
  exact (Hput "alice" "secret" bodyScenario
           (mkPermission EmptyString EmptyString EmptyString 0
                         (Some ["read"]) (Some ["search"]) None)
           (mkPermission "alice" "u-7f3a" "p-91c2" 1540000000
                         (Some ["read"]) (Some ["search"]) (Some [("ttl_sec", 3600)]))
           _ eq_refl eq_refl eq_refl eq_refl eq_refl).
Defined.

Lemma putOptions_user_id_witness :
  In (SetUserId "mallory")
     (putOptions (mkPermission "mallory" EmptyString EmptyString 0 None None None))
  /\ putOptions draft = [].
Proof.
  split.
  - apply (putOptions_user_id
             (mkPermission "mallory" EmptyString EmptyString 0 None None None)).
    split; [reflexivity|discriminate].
  - apply (putOptions_user_id draft). repeat split; reflexivity.
Defined.

Lemma InitFunc_succeeds_iff_witness :
  snd (fst (InitFunc L newES "{}" env (mkPermissions None) [])) = None
  /\ snd (fst (InitFunc L newES "{}" (<[envEsURL := EmptyString]> env)
                        (mkPermissions None) [])) <> None.
Proof.
  split.
  - apply (InitFunc_succeeds_iff L newES "{}" env (mkPermissions None) []).
    repeat split; vm_compute; discriminate || reflexivity.
  - intros Hnone.
    apply (InitFunc_succeeds_iff L newES "{}" (<[envEsURL := EmptyString]> env)
             (mkPermissions None) []) in Hnone.
    destruct Hnone as [Hurl _]. apply Hurl. vm_compute. reflexivity.
Defined.

Lemma InitFunc_reads_three_variables_witness :
  InitFunc L newES "{}" (<["HOME" := "/root"]> env) (mkPermissions None) []
  = InitFunc L newES "{}" env (mkPermissions None) [].
Proof.
  apply (InitFunc_reads_three_variables L newES "{}"
           (<["HOME" := "/root"]> env) env (mkPermissions None) []).
  intros v [<-|[<-|[<-|[]]]]; vm_compute; reflexivity.
Defined.
